(** * LinkedIn hiring-post scraper: the post pipeline

    A shallow embedding of the record pipeline of the scraper
    (src/utils.py, src/parser.py, src/main.py and the extraction routine
    of src/scraper.py) together with the properties of its stages.

    Conventions of the embedding.
    - A Python [str] is a [list ascii]; one [ascii] is one code point in
      U+0000..U+00FF, the range on which the character tables below
      (whitespace, word characters, lower-casing, UTF-8) are those of
      CPython.
    - A Python [int] is a [Z]; the one [float] of the program
      ([max_length * 0.8]) is a binary64 [float].
    - A post is a [dict] from field names to dynamically typed values;
      code that Python would stop with an exception returns [Raise].
    - Code that writes into objects ([clean_post_data],
      [score_and_rank_posts]) runs in a state-and-exception monad over a
      heap of dicts; code that only reads them is a function of their
      contents. *)

From Stdlib Require Import ZArith NArith Floats Uint63 Ascii String List Bool Lia.
From Stdlib Require Import Sorting.Permutation Sorting.Sorted.
From stdpp Require Import base gmap strings list.

#[local] Open Scope Z_scope.

(** ** Exceptions *)

Inductive exn : Set :=
| TypeError
| ValueError
| AttributeError
| KeyError
| OverflowError.

Inductive res (A : Type) : Type :=
| Ok (a : A)
| Raise (e : exn).
Arguments Ok {A} a.
Arguments Raise {A} e.

#[global] Instance res_ret : MRet res := fun A a => Ok a.
#[global] Instance res_bind : MBind res := fun A B f m =>
  match m with
  | Ok a => f a
  | Raise e => Raise e
  end.

(** [try: m except: d], a bare [except:] clause around a computation. *)
Definition try_except {A : Type} (m : res A) (handler : A) : A :=
  match m with
  | Ok a => a
  | Raise _ => handler
  end.

(** ** Python strings *)

Abbreviation pystr := (list ascii).

(** A string literal of the source. *)
Definition str (s : string) : pystr := list_ascii_of_string s.

Module Py.

Definition ord (c : ascii) : N := N_of_ascii c.
Definition chr (n : N) : ascii := ascii_of_N n.

Definition between (lo n hi : N) : bool := (lo <=? n)%N && (n <=? hi)%N.

(** [str.isspace], which is also the class [\s] of [re] and the set
    that [str.strip] removes. *)
Definition isspace (c : ascii) : bool :=
  let n := ord c in
  between 9 n 13 || between 28 n 32 || (n =? 133)%N || (n =? 160)%N.

(** The class [\d] of [re]. *)
Definition isdigit (c : ascii) : bool := between 48 (ord c) 57.

(** The class [\w] of [re]: alphanumerics and the underscore. *)
Definition isword (c : ascii) : bool :=
  let n := ord c in
  between 48 n 57 || between 65 n 90 || (n =? 95)%N || between 97 n 122
  || (n =? 170)%N || (n =? 178)%N || (n =? 179)%N || (n =? 181)%N
  || (n =? 185)%N || (n =? 186)%N || between 188 n 190
  || between 192 n 214 || between 216 n 246 || between 248 n 255.

Definition lower_char (c : ascii) : ascii :=
  let n := ord c in
  if between 65 n 90 || between 192 n 214 || between 216 n 222
  then chr (n + 32) else c.

(** [s.lower()] *)
Definition lower (s : pystr) : pystr := map lower_char s.

(** [s.lstrip()], [s.rstrip()], [s.strip()] *)
Fixpoint lstrip (s : pystr) : pystr :=
  match s with
  | [] => []
  | c :: s' => if isspace c then lstrip s' else s
  end.

Fixpoint rstrip (s : pystr) : pystr :=
  match s with
  | [] => []
  | c :: s' =>
      match rstrip s' with
      | [] => if isspace c then [] else [c]
      | r => c :: r
      end
  end.

Definition strip (s : pystr) : pystr := rstrip (lstrip s).

(** [re.sub(r'\s+', ' ', s)]: every maximal run of whitespace becomes
    one space; [in_run] tells that the previous character was
    whitespace. *)
Fixpoint sub_spaces (in_run : bool) (s : pystr) : pystr :=
  match s with
  | [] => []
  | c :: s' =>
      if isspace c
      then (if in_run then sub_spaces true s' else " "%char :: sub_spaces true s')
      else c :: sub_spaces false s'
  end.

(** [s.startswith(p)] *)
Fixpoint startswith (s p : pystr) : bool :=
  match p, s with
  | [], _ => true
  | _ :: _, [] => false
  | a :: p', b :: s' => Ascii.eqb a b && startswith s' p'
  end.

(** [p in s] for strings. *)
Fixpoint contains (s p : pystr) : bool :=
  startswith s p ||
  match s with
  | [] => false
  | _ :: s' => contains s' p
  end.

(** [s.replace(c, r)] for a one-character [c]. *)
Definition replace_char (c : ascii) (r : pystr) (s : pystr) : pystr :=
  flat_map (fun x => if Ascii.eqb x c then r else [x]) s.

(** [s[:n]], with Python's reading of a negative bound. *)
Definition slice_to (s : pystr) (n : Z) : pystr :=
  let len := Z.of_nat (length s) in
  let stop := if n <? 0 then Z.max 0 (len + n) else Z.min n len in
  take (Z.to_nat stop) s.

(** [s.rfind(c)] for a one-character [c]: the highest index of [c] in
    [s], or -1. *)
Fixpoint rfind (s : pystr) (c : ascii) : Z :=
  match s with
  | [] => -1
  | x :: s' =>
      let r := rfind s' c in
      if 0 <=? r then r + 1
      else if Ascii.eqb x c then 0 else -1
  end.

(** [len(s)] *)
Definition len (s : pystr) : Z := Z.of_nat (length s).

(** Truth value of a string: [not s] is [nonempty s = false]. *)
Definition nonempty (s : pystr) : bool :=
  match s with [] => false | _ => true end.

(** [float(n)] for an [int] of at most 63 bits (exact below 2^53). *)
Definition float_of_int (n : Z) : float :=
  if n <? 0 then PrimFloat.opp (PrimFloat.of_uint63 (Uint63.of_Z (- n)))
  else PrimFloat.of_uint63 (Uint63.of_Z n).

(** [n * x] for an [int] [n] and a [float] [x]. *)
Definition int_mul_float (n : Z) (x : float) : float :=
  PrimFloat.mul (float_of_int n) x.

(** The [float] that the literal [0.8] denotes. *)
Definition float_0_8 : float := 0x1.999999999999ap-1%float.

(** [n > x] for an [int] [n] and a [float] [x]. *)
Definition int_gt_float (n : Z) (x : float) : bool :=
  PrimFloat.ltb x (float_of_int n).

(** [s.encode()]: UTF-8, one or two bytes for a code point below 256. *)
Definition encode (s : pystr) : list Z :=
  flat_map (fun c =>
    let n := Z.of_N (ord c) in
    if n <? 128 then [n]
    else [Z.lor 192 (Z.shiftr n 6); Z.lor 128 (Z.land n 63)]) s.

End Py.

(** ** [re] patterns of the source *)

Module Re.

(** [\b] between a character [prev] (if any) and a character [next]
    (if any): exactly one side is a word character. *)
Definition boundary (prev next : option ascii) : bool :=
  xorb (from_option Py.isword false prev) (from_option Py.isword false next).

(** Does [r'\b' + re.escape(kw) + r'\b'] match at the current position,
    where [prev] is the character before it and [s] the rest of the
    text? The escaped keyword matches itself, so the match, if any, has
    the length of [kw]. *)
Definition match_word_at (kw : pystr) (prev : option ascii) (s : pystr) : bool :=
  boundary prev (head s)
  && Py.startswith s kw
  && boundary (last (prev :: map Some kw) ≫= id) (head (drop (length kw) s)).

(** [len(re.findall(r'\b' + re.escape(kw) + r'\b', text))]: matches are
    taken from left to right without overlap. [skip] counts the
    characters still covered by the previous match. A match of the
    empty keyword is empty, and the search then resumes one character
    further. *)
Fixpoint count_from (kw : pystr) (prev : option ascii) (s : pystr) (skip : nat) : Z :=
  match s with
  | [] =>
      match skip with
      | O => if match_word_at kw prev [] then 1 else 0
      | S _ => 0
      end
  | c :: s' =>
      match skip with
      | O =>
          if match_word_at kw prev s
          then 1 + count_from kw (Some c) s' (Nat.pred (length kw))
          else count_from kw (Some c) s' O
      | S k => count_from kw (Some c) s' k
      end
  end.

Definition count_word (kw text : pystr) : Z := count_from kw None text O.

(** Greedy [\d+] and [\s*]: the longest prefix in the class and what
    follows it. Neither can give a character back to what comes after
    it in the patterns below, which starts with a character outside
    the class. *)
Fixpoint span (p : ascii -> bool) (s : pystr) : pystr * pystr :=
  match s with
  | [] => ([], [])
  | c :: s' =>
      if p c then let '(a, b) := span p s' in (c :: a, b) else ([], s)
  end.

(** [(\d+)\s*unit] at the start of [s]: the text of group 1. *)
Definition match_number_unit (unit s : pystr) : option pystr :=
  let '(digits, rest) := span Py.isdigit s in
  if Py.nonempty digits && Py.startswith (snd (span Py.isspace rest)) unit
  then Some digits else None.

(** [re.search(r'(\d+)\s*unit', s)]: the leftmost match, as [group(1)]. *)
Fixpoint search_number_unit (unit s : pystr) : option pystr :=
  match match_number_unit unit s with
  | Some g => Some g
  | None =>
      match s with
      | [] => None
      | _ :: s' => search_number_unit unit s'
      end
  end.

(** [re.findall(r'\d+', s)[0]] when the list is not empty. *)
Fixpoint first_number (s : pystr) : option pystr :=
  match s with
  | [] => None
  | c :: s' => if Py.isdigit c then Some (fst (span Py.isdigit s)) else first_number s'
  end.

End Re.

(** [int(s)] for a string of decimal digits. *)
Definition int_of_digits (s : pystr) : Z :=
  fold_left (fun acc c => 10 * acc + (Z.of_N (Py.ord c) - 48)) s 0.

(** ** [hashlib.md5] (RFC 1321) on 32-bit words held in [Z] *)

Module MD5.

Definition wrap32 (x : Z) : Z := x mod 2 ^ 32.
Definition add32 (a b : Z) : Z := wrap32 (a + b).
Definition not32 (a : Z) : Z := Z.lxor a 0xffffffff.
Definition rotl32 (x c : Z) : Z :=
  wrap32 (Z.lor (Z.shiftl x c) (Z.shiftr x (32 - c))).

(** Per-round shift amounts. *)
Definition shifts : list Z :=
  [7; 12; 17; 22; 7; 12; 17; 22; 7; 12; 17; 22; 7; 12; 17; 22;
   5; 9; 14; 20; 5; 9; 14; 20; 5; 9; 14; 20; 5; 9; 14; 20;
   4; 11; 16; 23; 4; 11; 16; 23; 4; 11; 16; 23; 4; 11; 16; 23;
   6; 10; 15; 21; 6; 10; 15; 21; 6; 10; 15; 21; 6; 10; 15; 21].

(** [floor(2^32 * abs(sin(i + 1)))] for [i] from 0 to 63. *)
Definition sines : list Z :=
  [0xd76aa478; 0xe8c7b756; 0x242070db; 0xc1bdceee;
   0xf57c0faf; 0x4787c62a; 0xa8304613; 0xfd469501;
   0x698098d8; 0x8b44f7af; 0xffff5bb1; 0x895cd7be;
   0x6b901122; 0xfd987193; 0xa679438e; 0x49b40821;
   0xf61e2562; 0xc040b340; 0x265e5a51; 0xe9b6c7aa;
   0xd62f105d; 0x02441453; 0xd8a1e681; 0xe7d3fbc8;
   0x21e1cde6; 0xc33707d6; 0xf4d50d87; 0x455a14ed;
   0xa9e3e905; 0xfcefa3f8; 0x676f02d9; 0x8d2a4c8a;
   0xfffa3942; 0x8771f681; 0x6d9d6122; 0xfde5380c;
   0xa4beea44; 0x4bdecfa9; 0xf6bb4b60; 0xbebfbc70;
   0x289b7ec6; 0xeaa127fa; 0xd4ef3085; 0x04881d05;
   0xd9d4d039; 0xe6db99e5; 0x1fa27cf8; 0xc4ac5665;
   0xf4292244; 0x432aff97; 0xab9423a7; 0xfc93a039;
   0x655b59c3; 0x8f0ccc92; 0xffeff47d; 0x85845dd1;
   0x6fa87e4f; 0xfe2ce6e0; 0xa3014314; 0x4e0811a1;
   0xf7537e82; 0xbd3af235; 0x2ad7d2bb; 0xeb86d391].

Record state : Set := State { sa : Z; sb : Z; sc : Z; sd : Z }.

Definition init : state :=
  State 0x67452301 0xefcdab89 0x98badcfe 0x10325476.

(** The message followed by the bit 1, zeros up to 56 modulo 64, and
    the bit length as 8 little-endian bytes. *)
Definition le_bytes (n : nat) (x : Z) : list Z :=
  map (fun i => Z.land (Z.shiftr x (8 * Z.of_nat i)) 255) (seq 0 n).

Definition pad (msg : list Z) : list Z :=
  let l := Z.of_nat (length msg) in
  msg ++ [128] ++ repeat 0 (Z.to_nat ((55 - l) mod 64))
      ++ le_bytes 8 ((8 * l) mod 2 ^ 64).

Definition word_of_le (bs : list Z) : Z :=
  fold_right (fun b acc => b + 256 * acc) 0 bs.

(** The sixteen words of a 64-byte block. *)
Definition words (block : list Z) : list Z :=
  map (fun i => word_of_le (take 4 (drop (4 * i) block))) (seq 0 16).

Definition step (m : list Z) (st : state) (i : nat) : state :=
  let '(State a b c d) := st in
  let zi := Z.of_nat i in
  let '(f, g) :=
    if zi <? 16 then (Z.lor (Z.land b c) (Z.land (not32 b) d), zi)
    else if zi <? 32 then (Z.lor (Z.land d b) (Z.land (not32 d) c), (5 * zi + 1) mod 16)
    else if zi <? 48 then (Z.lxor (Z.lxor b c) d, (3 * zi + 5) mod 16)
    else (Z.lxor c (Z.lor b (not32 d)), (7 * zi) mod 16) in
  let f := add32 (add32 (add32 f a) (nth i sines 0)) (nth (Z.to_nat g) m 0) in
  State d (add32 b (rotl32 f (nth i shifts 0))) b c.

Definition compress (st : state) (block : list Z) : state :=
  let '(State a b c d) := fold_left (step (words block)) (seq 0 64) st in
  State (add32 (sa st) a) (add32 (sb st) b) (add32 (sc st) c) (add32 (sd st) d).

Fixpoint blocks (n : nat) (bytes : list Z) : list (list Z) :=
  match n with
  | O => []
  | S n' => take 64 bytes :: blocks n' (drop 64 bytes)
  end.

(** [hashlib.md5(msg).digest()] *)
Definition digest (msg : list Z) : list Z :=
  let padded := pad msg in
  let st := fold_left compress (blocks (length padded / 64) padded) init in
  le_bytes 4 (sa st) ++ le_bytes 4 (sb st) ++ le_bytes 4 (sc st) ++ le_bytes 4 (sd st).

Definition hex_digit (n : Z) : ascii :=
  if n <? 10 then Py.chr (Z.to_N (48 + n)) else Py.chr (Z.to_N (87 + n)).

Definition hex_byte (b : Z) : pystr := [hex_digit (b / 16); hex_digit (b mod 16)].

(** [hashlib.md5(msg).hexdigest()] *)
Definition hexdigest (msg : list Z) : pystr := flat_map hex_byte (digest msg).

End MD5.

(** [hashlib.md5(text.encode()).hexdigest()] *)
Definition md5_hex (text : pystr) : pystr := MD5.hexdigest (Py.encode text).

Arguments MD5.hexdigest : simpl never.
Arguments md5_hex : simpl never.

(** ** src/utils.py *)

(** [hash_url(url)] *)
Definition hash_url (url : pystr) : pystr := md5_hex url.

(** ** [datetime] *)

(** A [datetime.datetime]; [tzinfo] is [None] for a naive value and
    carries the UTC offset, in microseconds, of an aware one. *)
Record datetime : Set := Datetime {
  year : Z;
  month : Z;
  day : Z;
  hour : Z;
  minute : Z;
  second : Z;
  microsecond : Z;
  tzinfo : option Z
}.

#[global] Instance datetime_eq_dec : EqDecision datetime.
Proof. solve_decision. Defined.

Module DT.

Definition is_leap (y : Z) : bool :=
  (y mod 4 =? 0) && (negb (y mod 100 =? 0) || (y mod 400 =? 0)).

Definition days_in_month_table : list Z :=
  [-1; 31; 28; 31; 30; 31; 30; 31; 31; 30; 31; 30; 31].

Definition days_in_month (y m : Z) : Z :=
  if (m =? 2) && is_leap y then 29
  else nth (Z.to_nat m) days_in_month_table 0.

Definition days_before_year (y : Z) : Z :=
  let y := y - 1 in
  y * 365 + y / 4 - y / 100 + y / 400.

Definition days_before_month_table : list Z :=
  [0; 0; 31; 59; 90; 120; 151; 181; 212; 243; 273; 304; 334].

Definition days_before_month (y m : Z) : Z :=
  nth (Z.to_nat m) days_before_month_table 0
  + (if (2 <? m) && is_leap y then 1 else 0).

(** [date.toordinal]: 1 is the first of January of year 1. *)
Definition ymd2ord (y m d : Z) : Z :=
  days_before_year y + days_before_month y m + d.

(** [date.fromordinal] *)
Definition ord2ymd (n : Z) : Z * Z * Z :=
  let n := n - 1 in
  let n400 := n / 146097 in
  let n := n mod 146097 in
  let y := n400 * 400 + 1 in
  let n100 := n / 36524 in
  let n := n mod 36524 in
  let n4 := n / 1461 in
  let n := n mod 1461 in
  let n1 := n / 365 in
  let n := n mod 365 in
  let y := y + n100 * 100 + n4 * 4 + n1 in
  if (n1 =? 4) || (n100 =? 4) then (y - 1, 12, 31)
  else
    let leapyear := (n1 =? 3) && (negb (n4 =? 24) || (n100 =? 3)) in
    let m := Z.shiftr (n + 50) 5 in
    let preceding :=
      nth (Z.to_nat m) days_before_month_table 0
      + (if (2 <? m) && leapyear then 1 else 0) in
    if n <? preceding
    then
      let m := m - 1 in
      let preceding :=
        preceding - (nth (Z.to_nat m) days_in_month_table 0
                     + (if (m =? 2) && leapyear then 1 else 0)) in
      (y, m, n - preceding + 1)
    else (y, m, n - preceding + 1).

Definition max_ordinal : Z := 3652059.

Definition in_range (lo x hi : Z) : bool := (lo <=? x) && (x <=? hi).

(** The constructor [datetime(y, m, d, h, mi, s, us, tzinfo)], which
    refuses a field out of range. *)
Definition make (y m d h mi s us : Z) (tz : option Z) : res datetime :=
  if in_range 1 y 9999 && in_range 1 m 12 && in_range 1 d (days_in_month y m)
     && in_range 0 h 23 && in_range 0 mi 59 && in_range 0 s 59
     && in_range 0 us 999999
  then Ok (Datetime y m d h mi s us tz)
  else Raise ValueError.

(** [dt.replace(hour=h)], [dt.replace(day=d)], [dt.replace(month=m)]:
    the constructor on the other fields of [dt]. *)
Definition replace_hour (dt : datetime) (h : Z) : res datetime :=
  make (year dt) (month dt) (day dt) h (minute dt) (second dt) (microsecond dt) (tzinfo dt).

Definition replace_day (dt : datetime) (d : Z) : res datetime :=
  make (year dt) (month dt) d (hour dt) (minute dt) (second dt) (microsecond dt) (tzinfo dt).

Definition replace_month (dt : datetime) (m : Z) : res datetime :=
  make (year dt) m (day dt) (hour dt) (minute dt) (second dt) (microsecond dt) (tzinfo dt).

(** A [timedelta], as its total number of microseconds. *)
Definition us_per_second : Z := 1000000.
Definition us_per_day : Z := 86400 * us_per_second.

(** [timedelta(days=n)] *)
Definition timedelta_days (n : Z) : res Z :=
  if in_range (-999999999) n 999999999 then Ok (n * us_per_day)
  else Raise OverflowError.

(** [timedelta(hours=n)] *)
Definition timedelta_hours (n : Z) : res Z :=
  if in_range (-999999999) ((n * 3600 * us_per_second) / us_per_day) 999999999
  then Ok (n * 3600 * us_per_second)
  else Raise OverflowError.

(** Microseconds from the start of ordinal day 0 to the wall-clock
    reading of [dt]. *)
Definition wall_us (dt : datetime) : Z :=
  ((ymd2ord (year dt) (month dt) (day dt) * 86400
    + hour dt * 3600 + minute dt * 60 + second dt) * us_per_second)
  + microsecond dt.

(** [dt - td] for a timedelta [td]. *)
Definition sub (dt : datetime) (td : Z) : res datetime :=
  let total := wall_us dt - td in
  let days := total / us_per_day in
  let secs := (total mod us_per_day) / us_per_second in
  let us := (total mod us_per_day) mod us_per_second in
  if (0 <? days) && (days <=? max_ordinal)
  then
    let '(y, m, d) := ord2ymd days in
    Ok (Datetime y m d (secs / 3600) ((secs mod 3600) / 60) (secs mod 60) us (tzinfo dt))
  else Raise OverflowError.

Definition fields (dt : datetime) : list Z :=
  [year dt; month dt; day dt; hour dt; minute dt; second dt; microsecond dt].

(** Comparison of tuples of integers. *)
Fixpoint cmp_list (a b : list Z) : comparison :=
  match a, b with
  | [], [] => Eq
  | [], _ :: _ => Lt
  | _ :: _, [] => Gt
  | x :: a', y :: b' =>
      match x ?= y with
      | Eq => cmp_list a' b'
      | c => c
      end
  end.

(** [a >= b]. Two naive values, or two aware ones with the same
    offset, compare field by field; two aware ones with different
    offsets compare as instants; a naive and an aware one do not
    compare. *)
Definition ge (a b : datetime) : res bool :=
  match tzinfo a, tzinfo b with
  | None, None => Ok (negb (match cmp_list (fields a) (fields b) with Lt => true | _ => false end))
  | Some oa, Some ob =>
      if oa =? ob
      then Ok (negb (match cmp_list (fields a) (fields b) with Lt => true | _ => false end))
      else Ok (wall_us b - ob <=? wall_us a - oa)
  | _, _ => Raise TypeError
  end.

End DT.

(** ** Values and dicts *)

Inductive value : Set :=
| VNone
| VStr (s : pystr)
| VInt (n : Z)
| VDate (d : datetime).

#[global] Instance value_eq_dec : EqDecision value.
Proof. solve_decision. Defined.

(** The truth value of an object: [not v] is [truthy v = false]. *)
Definition truthy (v : value) : bool :=
  match v with
  | VNone => false
  | VStr s => Py.nonempty s
  | VInt n => negb (n =? 0)
  | VDate _ => true
  end.

Abbreviation dict := (gmap string value).

(** [d.get(k)] and [d.get(k, dflt)] *)
Definition dict_get (d : dict) (k : string) : value := default VNone (d !! k).
Definition dict_get_or (d : dict) (k : string) (dflt : value) : value :=
  default dflt (d !! k).

(** [v.encode()], [v[:n]], [v.startswith(p)], [v.strip()] on an object. *)
Definition v_encode (v : value) : res (list Z) :=
  match v with
  | VStr s => Ok (Py.encode s)
  | _ => Raise AttributeError
  end.

Definition v_slice_to (v : value) (n : Z) : res pystr :=
  match v with
  | VStr s => Ok (Py.slice_to s n)
  | _ => Raise TypeError
  end.

Definition v_startswith (v : value) (p : pystr) : res bool :=
  match v with
  | VStr s => Ok (Py.startswith s p)
  | _ => Raise AttributeError
  end.

(** ** src/utils.py: text, scoring and deduplication *)

(** [normalize_text(text)] *)
Definition normalize_text (text : value) : res pystr :=
  if negb (truthy text) then Ok []
  else
    match text with
    | VStr text =>
        let text := Py.sub_spaces false text in
        let text := Py.strip text in
        Ok text
    | _ => Raise TypeError
    end.

(** [extract_text_snippet(text, max_length)] *)
Definition extract_text_snippet (text : value) (max_length : Z) : res pystr :=
  if negb (truthy text) then Ok []
  else
    match text with
    | VStr text =>
        if Py.len text <=? max_length then Ok text
        else
          let snippet := Py.slice_to text max_length in
          let last_space := Py.rfind snippet " "%char in
          let snippet :=
            if Py.int_gt_float last_space (Py.int_mul_float max_length Py.float_0_8)
            then Py.slice_to snippet last_space
            else snippet in
          Ok (snippet ++ str "...")
    | _ => Raise TypeError
    end.

(** The default of the parameter [max_length]. *)
Definition default_max_length : Z := 200.

(** [calculate_relevance_score(text, keywords)]; [text] is whatever the
    caller read from the post. *)
Definition calculate_relevance_score (text : value) (keywords : list pystr) : res Z :=
  if negb (truthy text) || negb (match keywords with [] => false | _ => true end)
  then Ok 0
  else
    match text with
    | VStr text =>
        let text_lower := Py.lower text in
        Ok (fold_left
              (fun score keyword => score + Re.count_word (Py.lower keyword) text_lower)
              keywords 0)
    | _ => Raise AttributeError
    end.

(** The key that the loop of [deduplicate_posts] computes for one post:
    the variable [post_key] when the two fallbacks have run. *)
Definition post_key_of (key : string) (post : dict) : res value :=
  let post_key := dict_get post key in
  post_key ←
    (if negb (truthy post_key) && String.eqb key "post_url"
     then
       let text := dict_get_or post "text" (VStr []) in
       if truthy text
       then bytes ← v_encode text; Ok (VStr (MD5.hexdigest bytes))
       else Ok post_key
     else Ok post_key);
  if negb (truthy post_key)
  then
    text ← v_slice_to (dict_get_or post "text" (VStr [])) 50;
    if Py.nonempty text
    then Ok (VStr (md5_hex text))
    else Ok post_key
  else Ok post_key.

(** The loop of [deduplicate_posts], with its two accumulators. *)
Fixpoint dedup_loop (key : string) (posts : list dict)
    (seen : list value) (unique_posts : list dict) : res (list dict) :=
  match posts with
  | [] => Ok unique_posts
  | post :: rest =>
      post_key ← post_key_of key post;
      if truthy post_key && negb (bool_decide (post_key ∈ seen))
      then dedup_loop key rest (post_key :: seen) (unique_posts ++ [post])
      else if negb (truthy post_key)
      then dedup_loop key rest seen (unique_posts ++ [post])
      else dedup_loop key rest seen unique_posts
  end.

(** [deduplicate_posts(posts, key)]. The set [seen] is kept as the list
    of the keys added to it; the code only asks it for membership. *)
Definition deduplicate_posts (posts : list dict) (key : string) : res (list dict) :=
  dedup_loop key posts [] [].

(** ** src/parser.py: relative dates *)

(** The loop over [patterns] in [parse_relative_date]: the first pattern
    that matches and whose function does not raise gives the result;
    otherwise [now]. *)
Fixpoint first_pattern (patterns : list (pystr * (Z -> res datetime)))
    (date_text : pystr) (now : datetime) : datetime :=
  match patterns with
  | [] => now
  | (unit, func) :: rest =>
      match Re.search_number_unit unit date_text with
      | Some group1 =>
          match func (int_of_digits group1) with
          | Ok d => d
          | Raise _ => first_pattern rest date_text now
          end
      | None => first_pattern rest date_text now
      end
  end.

(** [parse_relative_date(date_text)], with [now] the reading of
    [datetime.now()]. *)
Definition parse_relative_date (now : datetime) (date_text : pystr) : option datetime :=
  if negb (Py.nonempty date_text) then None
  else
    let date_text := Py.strip (Py.lower date_text) in
    let patterns :=
      [ (str "hour",  fun x => DT.replace_hour now (hour now - x));
        (str "day",   fun x => DT.replace_day now (day now - x));
        (str "week",  fun x => DT.replace_day now (day now - x * 7));
        (str "month", fun x => DT.replace_month now (month now - x)) ] in
    Some (first_pattern patterns date_text now).

(** ** [datetime.fromisoformat] *)

(** The ISO 8601 parser of the standard library, whose accepted formats
    depend on the interpreter version: it returns a datetime, naive or
    aware, or raises [ValueError]. *)
Class IsoParser := fromisoformat : pystr -> res datetime.

(** ** src/main.py: the date filter *)

Section DateFilter.
Context `{IsoParser}.

(** Does one iteration of the loop of [filter_posts_by_date] append
    [post] to [filtered]? *)
Definition keeps_post (cutoff_date : datetime) (post : dict) : res bool :=
  match dict_get post "date_posted" with
  | VDate date_posted => DT.ge date_posted cutoff_date
  | VStr date_posted =>
      Ok (try_except
            (date_obj ← fromisoformat (Py.replace_char "Z"%char (str "+00:00") date_posted);
             DT.ge date_obj cutoff_date)
            true)
  | _ => Ok true
  end.

Fixpoint filter_loop (cutoff_date : datetime) (posts filtered : list dict)
    : res (list dict) :=
  match posts with
  | [] => Ok filtered
  | post :: rest =>
      keep ← keeps_post cutoff_date post;
      filter_loop cutoff_date rest (if keep : bool then filtered ++ [post] else filtered)
  end.

(** [filter_posts_by_date(posts, days_limit)], with [now] the reading
    of [datetime.now()]; [days_limit] is [None] when the caller passes
    [None]. *)
Definition filter_posts_by_date (now : datetime) (posts : list dict)
    (days_limit : option Z) : res (list dict) :=
  match days_limit with
  | None => Ok posts
  | Some days_limit =>
      if (days_limit =? 0) || (days_limit <=? 0) then Ok posts
      else
        delta ← DT.timedelta_days days_limit;
        cutoff_date ← DT.sub now delta;
        filter_loop cutoff_date posts []
  end.

End DateFilter.

(** ** The heap of dicts *)

(** Posts are dict objects; a variable holds a reference. The heap is
    the list of the dicts allocated so far and a reference is an index
    into it. *)
Abbreviation loc := nat.
Abbreviation heap := (list dict).

(** Computations that read and write the heap and may raise. *)
Record M (A : Type) : Type := MkM { run : heap -> heap * res A }.
Arguments MkM {A} _.
Arguments run {A} _ _.

#[global] Instance M_ret : MRet M := fun A a => MkM (fun h => (h, Ok a)).
#[global] Instance M_bind : MBind M := fun A B f m =>
  MkM (fun h =>
    match run m h with
    | (h', Ok a) => run (f a) h'
    | (h', Raise e) => (h', Raise e)
    end).

Definition lift {A : Type} (r : res A) : M A := MkM (fun h => (h, r)).

(** [try: m except Exception: handler] *)
Definition try_catch {A : Type} (m handler : M A) : M A :=
  MkM (fun h =>
    match run m h with
    | (h', Ok a) => (h', Ok a)
    | (h', Raise _) => run handler h'
    end).

(** A dict display [{...}]: a new object. *)
Definition new_dict (d : dict) : M loc :=
  MkM (fun h => (h ++ [d], Ok (length h))).

Definition contents (h : heap) (l : loc) : dict := default ∅ (h !! l).

Definition read (l : loc) : M dict := MkM (fun h => (h, Ok (contents h l))).

(** [l.copy()] *)
Definition dict_copy (l : loc) : M loc := d ← read l; new_dict d.

(** [k in l] *)
Definition has_key (l : loc) (k : string) : M bool :=
  d ← read l; mret (bool_decide (is_Some (d !! k))).

(** [l[k]] *)
Definition getitem (l : loc) (k : string) : M value :=
  d ← read l;
  lift (match d !! k with Some v => Ok v | None => Raise KeyError end).

(** [l.get(k, dflt)] *)
Definition get_or (l : loc) (k : string) (dflt : value) : M value :=
  d ← read l; mret (dict_get_or d k dflt).

(** [l[k] = v] *)
Definition setitem (l : loc) (k : string) (v : value) : M unit :=
  MkM (fun h => (alter (insert k v) l h, Ok tt)).

(** ** src/parser.py: the cleaner *)

Definition base_url_default : pystr := str "https://www.linkedin.com".

(** The block that completes one URL field of [cleaned]; the source has
    it once for ['post_url'] and once for ['author_url']. *)
Definition complete_url (cleaned : loc) (field : string) : M unit :=
  present ← has_key cleaned field;
  if present : bool
  then
    url ← getitem cleaned field;
    if truthy url
    then
      url ← getitem cleaned field;
      is_http ← lift (v_startswith url (str "http"));
      if negb is_http
      then
        url ← getitem cleaned field;
        match url with
        | VStr url => setitem cleaned field (VStr (base_url_default ++ url))
        | _ => lift (Raise TypeError)
        end
      else mret tt
    else mret tt
  else mret tt.

Section Cleaner.
Context `{IsoParser}.

(** [clean_post_data(post)], with [now] the reading of
    [datetime.now()]. *)
Definition clean_post_data (now : datetime) (post : loc) : M loc :=
  cleaned ← dict_copy post;
  has_text ← has_key cleaned "text";
  (if has_text : bool
   then
     text ← getitem cleaned "text";
     text ← lift (normalize_text text);
     setitem cleaned "text" (VStr text);;
     text ← getitem cleaned "text";
     snippet ← lift (extract_text_snippet text default_max_length);
     setitem cleaned "text_snippet" (VStr snippet)
   else mret tt);;
  complete_url cleaned "post_url";;
  complete_url cleaned "author_url";;
  has_date ← has_key cleaned "date_posted";
  (if has_date : bool
   then
     date_posted ← getitem cleaned "date_posted";
     match date_posted with
     | VStr date_posted =>
         setitem cleaned "date_posted"
           (VDate (try_except (fromisoformat date_posted) now))
     | _ => mret tt
     end
   else mret tt);;
  mret cleaned.

End Cleaner.

(** ** src/main.py: scoring and ranking *)

(** [l.sort(key=..., reverse=True)] on the keys already computed: a
    stable sort, so an element goes in front of the first one whose key
    is not greater, and elements with equal keys keep their order. *)
Fixpoint insert_desc {A : Type} (x : Z * A) (l : list (Z * A)) : list (Z * A) :=
  match l with
  | [] => [x]
  | y :: l' => if fst x <? fst y then y :: insert_desc x l' else x :: l
  end.

Definition sort_reverse {A : Type} (l : list (Z * A)) : list (Z * A) :=
  foldr insert_desc [] l.

(** The sort key [x.get('score', 0)]. Keys are compared as integers; the
    loop before the sort has stored an [int] in every post. *)
Definition score_key (x : loc) : M Z :=
  v ← get_or x "score" (VInt 0);
  match v with
  | VInt n => mret n
  | _ => lift (Raise TypeError)
  end.

Fixpoint score_loop (posts : list loc) (keywords : list pystr) : M unit :=
  match posts with
  | [] => mret tt
  | post :: rest =>
      text ← get_or post "text" (VStr []);
      score ← lift (calculate_relevance_score text keywords);
      setitem post "score" (VInt score);;
      score_loop rest keywords
  end.

Fixpoint keyed (posts : list loc) : M (list (Z * loc)) :=
  match posts with
  | [] => mret []
  | x :: rest => k ← score_key x; ks ← keyed rest; mret ((k, x) :: ks)
  end.

(** [score_and_rank_posts(posts, keywords)]; the result is the list
    [posts] itself, sorted in place. *)
Definition score_and_rank_posts (posts : list loc) (keywords : list pystr)
    : M (list loc) :=
  score_loop posts keywords;;
  decorated ← keyed posts;
  mret (map snd (sort_reverse decorated)).

(** ** Raw units and the adapters *)

(** What the code observes of an anchor and of a [time] element. *)
Record link : Set := Link {
  href : option pystr;      (* the attribute, when the tag has it *)
  link_text : pystr         (* its text *)
}.

Record time_elem : Set := TimeElem {
  datetime_attr : option pystr;
  time_text : pystr
}.

(** A markup node of the HTML parser, as the results of the lookups that
    [parse_post_element] and [extract_engagement] make on it. *)
Record soup_node : Set := SoupNode {
  find_post_link : option link;       (* find('a', href=re.compile(r'/posts/')) *)
  find_author_link : option link;     (* find('a', href=re.compile(r'/in/')) *)
  find_description : option pystr;    (* text of find('div', class_=...description) *)
  find_span_ltr : option pystr;       (* text of find('span', {'dir': 'ltr'}) *)
  find_div_text : option pystr;       (* text of find('div', class_=re.compile(r'text')) *)
  find_time : option time_elem;       (* find('time') *)
  find_like_string : option pystr;    (* find(string=re.compile('.*like.*', re.I)) *)
  find_comment_string : option pystr  (* find(string=re.compile('.*comment.*', re.I)) *)
}.

(** The argument of [parse_post_element]: a dict, a markup node, or an
    object without a [get] attribute. *)
Inductive raw_unit : Set :=
| RawDict (d : loc)
| RawNode (n : soup_node)
| RawOther.

(** [href if href.startswith('http') else base + href] *)
Definition absolute (base url : pystr) : pystr :=
  if Py.startswith url (str "http") then url else base ++ url.

(** [a or b] on an optional string that a dict display then stores. *)
Definition or_str (a : option pystr) (b : pystr) : pystr :=
  match a with
  | Some s => if Py.nonempty s then s else b
  | None => b
  end.

(** [extract_engagement(element, metric_type)], given the string that
    [element.find(string=pattern)] returns. *)
Definition extract_engagement (found : option pystr) : Z :=
  match found with
  | Some engagement_elem =>
      if Py.nonempty engagement_elem
      then
        match Re.first_number engagement_elem with
        | Some n => int_of_digits n
        | None => 0
        end
      else 0
  | None => 0
  end.

Section Adapters.
Context `{IsoParser}.

(** The [datetime] attribute read with a bare [except: pass]. *)
Definition parse_datetime_attr (attr : pystr) : option datetime :=
  try_except
    (d ← fromisoformat (Py.replace_char "Z"%char (str "+00:00") attr); Ok (Some d))
    None.

(** The variables [post_url] and [text] of [parse_post_element] when its
    test is reached. *)
Definition node_permalink (element : soup_node) (base_url : pystr) : option pystr :=
  match find_post_link element with
  | Some post_url_elem =>
      match href post_url_elem with
      | Some h => if Py.nonempty h then Some (absolute base_url h) else None
      | None => None
      end
  | None => None
  end.

Definition node_text (element : soup_node) : res pystr :=
  let text_elem :=
    match find_description element with
    | Some e => Some e
    | None =>
        match find_span_ltr element with
        | Some e => Some e
        | None => find_div_text element
        end
    end in
  match text_elem with
  | Some t => normalize_text (VStr t)
  | None => Ok []
  end.

(** The markup branch of [parse_post_element] up to its [return]:
    [None] for [return None], otherwise the dict of the display. *)
Definition parse_node (now_rel now : datetime) (element : soup_node)
    (base_url : pystr) : res (option dict) :=
  let post_url := node_permalink element base_url in
  author ←
    match find_author_link element with
    | Some author_elem =>
        let h := default [] (href author_elem) in
        author_name ← normalize_text (VStr (link_text author_elem));
        Ok (Some (absolute base_url h), Some author_name)
    | None => Ok (None, None)
    end;
  let '(author_url, author_name) := author in
  text ← node_text element;
  let date_posted :=
    match find_time element with
    | Some date_elem =>
        match datetime_attr date_elem with
        | Some a =>
            if Py.nonempty a then parse_datetime_attr a
            else parse_relative_date now_rel (time_text date_elem)
        | None => parse_relative_date now_rel (time_text date_elem)
        end
    | None => None
    end in
  let likes := extract_engagement (find_like_string element) in
  let comments := extract_engagement (find_comment_string element) in
  if negb (from_option Py.nonempty false post_url) || negb (Py.nonempty text)
  then Ok None
  else
    snippet ← extract_text_snippet (VStr text) default_max_length;
    Ok (Some
      (<["post_url" := VStr (default [] post_url)]>
       (<["author_url" := VStr (or_str author_url [])]>
       (<["author_name" := VStr (or_str author_name (str "Unknown"))]>
       (<["text" := VStr text]>
       (<["text_snippet" := VStr snippet]>
       (<["date_posted" := VDate (default now date_posted)]>
       (<["likes" := VInt likes]>
       (<["comments" := VInt comments]> ∅))))))))).

(** [parse_post_element(element, base_url)]; [now_rel] and [now] are
    the readings of [datetime.now()] in [parse_relative_date] and in
    the dict display. A dict is returned as it is; an exception in the
    markup branch gives [None]. *)
Definition parse_post_element (now_rel now : datetime) (element : raw_unit)
    (base_url : pystr) : M (option loc) :=
  match element with
  | RawDict d => mret (Some d)
  | RawNode node =>
      match parse_node now_rel now node base_url with
      | Ok (Some fields) => post ← new_dict fields; mret (Some post)
      | Ok None => mret None
      | Raise _ => mret None
      end
  | RawOther => mret None
  end.

End Adapters.

(** A node of the browser page, as the results of the queries that
    [_extract_single_post] makes on it. *)
Record page_element : Set := PageElement {
  query_post_link : option link;     (* query_selector('a[href*="/posts/"]') *)
  query_author_link : option link;   (* query_selector('a[href*="/in/"]') *)
  query_text : list (option pystr);  (* inner text for each of text_selectors *)
  query_time : option time_elem;     (* query_selector('time') *)
  query_likes : option pystr;        (* inner text of the likes element *)
  query_comments : option pystr;     (* inner text of the comments element *)
  query_any_link : option link;      (* query_selector('a[href]') *)
  inner_text : res pystr             (* element.inner_text() *)
}.

(** The loop over [text_selectors]. *)
Fixpoint first_text (found : list (option pystr)) (text : pystr) : pystr :=
  match found with
  | [] => text
  | None :: rest => first_text rest text
  | Some t :: rest => if Py.nonempty t then t else first_text rest t
  end.

(** The first integer of a counter text, commas removed. *)
Definition counter (found : option pystr) : Z :=
  match found with
  | Some t =>
      if Py.nonempty t
      then
        match Re.first_number (Py.replace_char ","%char [] t) with
        | Some n => int_of_digits n
        | None => 0
        end
      else 0
  | None => 0
  end.

(** [href] made absolute when the link has a non-empty one. *)
Definition link_url (l : option link) : option pystr :=
  match l with
  | Some a =>
      match href a with
      | Some h => if Py.nonempty h then Some (absolute base_url_default h) else None
      | None => None
      end
  | None => None
  end.

Definition placeholder_url : pystr := str "https://www.linkedin.com/feed/post/".

(** The variables [author_url] and [author_name] of
    [_extract_single_post]. *)
Definition author_of (element : page_element) : option pystr * option pystr :=
  match query_author_link element with
  | Some author_link =>
      match href author_link with
      | Some h =>
          if Py.nonempty h
          then (Some (absolute base_url_default h),
                if Py.nonempty (link_text author_link)
                then Some (Py.strip (link_text author_link)) else None)
          else (None, None)
      | None => (None, None)
      end
  | None => (None, None)
  end.

(** The variable [post_url] when the final test is reached: the href of
    the post link, or else of the first link if it points to a post. *)
Definition permalink_of (element : page_element) : option pystr :=
  match link_url (query_post_link element) with
  | Some u => Some u
  | None =>
      match query_any_link element with
      | Some any_link =>
          match href any_link with
          | Some h =>
              if Py.nonempty h && Py.contains h (str "/posts/")
              then Some (absolute base_url_default h) else None
          | None => None
          end
      | None => None
      end
  end.

(** The variable [text] when the final test is reached: the text of the
    first selector that has some, or else the text of the whole
    element, stripped. *)
Definition body_text_of (element : page_element) : pystr :=
  let text := first_text (query_text element) [] in
  if negb (Py.nonempty text)
  then try_except
         (t ← inner_text element; Ok (if Py.nonempty t then Py.strip t else []))
         text
  else text.

Section Extraction.
Context `{IsoParser}.

(** The [datetime] attribute read with
    [except (ValueError, AttributeError): pass]; another exception
    leaves the function through its outer handler. *)
Definition read_datetime_attr (attr : pystr) : res (option datetime) :=
  match fromisoformat (Py.replace_char "Z"%char (str "+00:00") attr) with
  | Ok d => Ok (Some d)
  | Raise ValueError | Raise AttributeError => Ok None
  | Raise e => Raise e
  end.

(** The variable [date_posted] before the display. *)
Definition date_of (now_rel : datetime) (element : page_element)
    : res (option datetime) :=
  match query_time element with
  | Some time_elem =>
      date_posted ←
        match datetime_attr time_elem with
        | Some a => if Py.nonempty a then read_datetime_attr a else Ok None
        | None => Ok None
        end;
      match date_posted with
      | Some d => Ok (Some d)
      | None =>
          if Py.nonempty (time_text time_elem)
          then Ok (parse_relative_date now_rel (time_text time_elem))
          else Ok None
      end
  | None => Ok None
  end.

(** The body of [_extract_single_post] up to the dict display: [None]
    for the early [return None], otherwise the fields of [post_data]. *)
Definition extract_fields (now_rel now : datetime) (element : page_element)
    : res (option dict) :=
  let '(author_url, author_name) := author_of element in
  date_posted ← date_of now_rel element;
  let likes := counter (query_likes element) in
  let comments := counter (query_comments element) in
  let post_url := permalink_of element in
  let text := body_text_of element in
  if negb (from_option Py.nonempty false post_url) && negb (Py.nonempty text)
  then Ok None
  else
    let post_url :=
      if negb (from_option Py.nonempty false post_url)
      then Some (placeholder_url ++ Py.slice_to (md5_hex text) 12)
      else post_url in
    Ok (Some
      (<["post_url" := VStr (or_str post_url [])]>
       (<["author_url" := VStr (or_str author_url [])]>
       (<["author_name" := VStr (or_str author_name (str "Unknown"))]>
       (<["text" := VStr (Py.strip text)]>
       (<["date_posted" := VDate (default now date_posted)]>
       (<["likes" := VInt likes]>
       (<["comments" := VInt comments]> ∅)))))))).

(** [_extract_single_post(element)]: the display allocates
    [post_data], which [clean_post_data] then copies; an exception of
    the cleaner leaves [post_data] as it is, any other one gives
    [None]. *)
Definition _extract_single_post (now_rel now now_clean : datetime)
    (element : page_element) : M (option loc) :=
  match extract_fields now_rel now element with
  | Ok None => mret None
  | Ok (Some fields) =>
      post_data ← new_dict fields;
      post_data ← try_catch (clean_post_data now_clean post_data) (mret post_data);
      mret (Some post_data)
  | Raise _ => mret None
  end.

End Extraction.

(** ** A parser instance for running examples *)

(** The formats [YYYY-MM-DD] and [YYYY-MM-DDTHH:MM:SS], the latter with
    an optional [+HH:MM] or [-HH:MM], which every version of
    [datetime.fromisoformat] reads; anything else is refused here. *)
Definition number_of (s : pystr) : res Z :=
  if Py.nonempty s && forallb Py.isdigit s then Ok (int_of_digits s)
  else Raise ValueError.

Definition parse_offset (s : pystr) : res (option Z) :=
  match s with
  | [] => Ok None
  | [sign; h1; h2; colon; m1; m2] =>
      if Ascii.eqb colon ":"%char && (Ascii.eqb sign "+"%char || Ascii.eqb sign "-"%char)
      then
        h ← number_of [h1; h2];
        m ← number_of [m1; m2];
        if (h <? 24) && (m <? 60)
        then
          let us := (h * 3600 + m * 60) * DT.us_per_second in
          Ok (Some (if Ascii.eqb sign "-"%char then - us else us))
        else Raise ValueError
      else Raise ValueError
  | _ => Raise ValueError
  end.

Definition iso_basic : IsoParser := fun s =>
  match s with
  | y1 :: y2 :: y3 :: y4 :: dash1 :: m1 :: m2 :: dash2 :: d1 :: d2 :: rest =>
      if Ascii.eqb dash1 "-"%char && Ascii.eqb dash2 "-"%char
      then
        y ← number_of [y1; y2; y3; y4];
        m ← number_of [m1; m2];
        d ← number_of [d1; d2];
        match rest with
        | [] => DT.make y m d 0 0 0 0 None
        | _ :: h1 :: h2 :: c1 :: i1 :: i2 :: c2 :: s1 :: s2 :: tz =>
            if Ascii.eqb c1 ":"%char && Ascii.eqb c2 ":"%char
            then
              h ← number_of [h1; h2];
              mi ← number_of [i1; i2];
              sec ← number_of [s1; s2];
              off ← parse_offset tz;
              DT.make y m d h mi sec 0 off
            else Raise ValueError
        | _ => Raise ValueError
        end
      else Raise ValueError
  | _ => Raise ValueError
  end.

(** ** Specifications *)

(** What remains of [posts] when, among the records that have a key,
    only the first one for each key is kept, and every record without a
    key is kept: the record at position [i] stays unless its key already
    occurs at a position before [i]. *)
Definition first_of_its_key {K : Type} `{EqDecision K}
    (keys : list (option K)) (i : nat) : bool :=
  match keys !! i with
  | Some (Some k) => bool_decide (Some k ∉ take i keys)
  | _ => true
  end.

Definition keep_first {K A : Type} `{EqDecision K}
    (keys : list (option K)) (posts : list A) : list A :=
  concat (imap (fun i post => if first_of_its_key keys i then [post] else []) posts).

(** The text of a post as a string, empty when the field is missing. *)
Definition text_of (post : dict) : pystr :=
  match post !! "text" with
  | Some (VStr s) => s
  | _ => []
  end.

(** The text field holds a string, or is missing. *)
Definition text_is_str (post : dict) : Prop :=
  match post !! "text" with
  | Some (VStr _) | None => True
  | Some _ => False
  end.

(** The key of a post as the specification words it: the value of
    [key_field] if non-empty, else the hash of the full text if
    non-empty, else the hash of the first 50 characters of the text if
    non-empty, else no key. *)
Definition key_by_the_words (key_field : string) (post : dict) : option value :=
  if truthy (dict_get post key_field) then Some (dict_get post key_field)
  else if Py.nonempty (text_of post) then Some (VStr (md5_hex (text_of post)))
  else if Py.nonempty (take 50 (text_of post))
       then Some (VStr (md5_hex (take 50 (text_of post))))
  else None.

(** The same chain with the second step only for the key field
    ["post_url"]. *)
Definition key_by_the_chain (key_field : string) (post : dict) : option value :=
  if truthy (dict_get post key_field) then Some (dict_get post key_field)
  else if bool_decide (key_field = "post_url") && Py.nonempty (text_of post)
       then Some (VStr (md5_hex (text_of post)))
  else if Py.nonempty (take 50 (text_of post))
       then Some (VStr (md5_hex (take 50 (text_of post))))
  else None.

(** The score stored in the post [l] of the heap [h], as the sort key
    reads it. *)
Definition score_of (h : heap) (l : loc) : Z :=
  match dict_get_or (contents h l) "score" (VInt 0) with
  | VInt n => n
  | _ => 0
  end.

(** [now - timedelta(hours=n)] and [now - timedelta(days=n)]: the
    subtraction of a duration. *)
Definition hours_before (now : datetime) (n : Z) : res datetime :=
  delta ← DT.timedelta_hours n; DT.sub now delta.

Definition days_before (now : datetime) (n : Z) : res datetime :=
  delta ← DT.timedelta_days n; DT.sub now delta.

(** ** Auxiliary definitions of the proofs *)

(** The integers from [lo], [n] of them. *)
Definition zrange (lo : Z) (n : nat) : list Z :=
  map (fun i => lo + Z.of_nat i) (seq 0 n).

(** The test [last_space > max_length * 0.8] of the code, and the same
    comparison on integers. *)
Definition threshold_agrees (max_length : Z) : bool :=
  forallb (fun last_space =>
    Bool.eqb
      (Py.int_gt_float last_space (Py.int_mul_float max_length Py.float_0_8))
      (4 * max_length <? 5 * last_space))
    (zrange (-1) (Z.to_nat max_length + 2)).

(** A text of 201 characters whose last space within the first 200
    is at index 160, which is exactly four fifths of 200. *)
Definition text_space_at_160 : pystr :=
  repeat "a"%char 160 ++ " "%char :: repeat "b"%char 40.

(** The loop of [calculate_relevance_score] as a sum. *)
Definition total_matches (text_lower : pystr) (keywords : list pystr) : Z :=
  foldr Z.add 0 (map (fun keyword => Re.count_word (Py.lower keyword) text_lower) keywords).

(** The posts with the key the loop of [deduplicate_posts] computes for
    each of them. *)
Fixpoint with_keys (key : string) (posts : list dict) : res (list (value * dict)) :=
  match posts with
  | [] => Ok []
  | post :: rest =>
      k ← post_key_of key post;
      r ← with_keys key rest;
      Ok ((k, post) :: r)
  end.

(** The loop of [deduplicate_posts] on posts whose keys are known. *)
Fixpoint kept (seen : list value) (keyed : list (value * dict)) : list (value * dict) :=
  match keyed with
  | [] => []
  | (k, post) :: rest =>
      if truthy k && negb (bool_decide (k ∈ seen)) then (k, post) :: kept (k :: seen) rest
      else if negb (truthy k) then (k, post) :: kept seen rest
      else kept seen rest
  end.

(** A falsy [post_key] is no key. *)
Definition as_key (k : value) : option value := if truthy k then Some k else None.

(** [keep_first] on the part of a list that follows [pre]. *)
Definition keep_from {K A : Type} `{EqDecision K}
    (pre keys : list (option K)) (posts : list A) : list A :=
  concat (imap (fun i post =>
                  if first_of_its_key (pre ++ keys) (length pre + i) then [post] else [])
               posts).

(** Two posts without the field ["author_url"] whose texts agree on
    their first 50 characters and differ after them. *)
Definition post_long_x : dict :=
  {[ "text" := VStr (repeat "a"%char 50 ++ str "x") ]}.
Definition post_long_y : dict :=
  {[ "text" := VStr (repeat "a"%char 50 ++ str "y") ]}.

(** Two posts without a URL and with the same text, and one with a URL. *)
Definition post_hiring_1 : dict :=
  {[ "text" := VStr (str "Hiring now") ]}.
Definition post_hiring_2 : dict :=
  <[ "author_name" := VStr (str "B") ]> {[ "text" := VStr (str "Hiring now") ]}.
Definition post_with_url : dict :=
  <[ "post_url" := VStr (str "/posts/1") ]> {[ "text" := VStr (str "We are hiring engineers") ]}.
Definition post_keyless : dict := {[ "author_name" := VStr (str "C") ]}.

(** Every pair of [with_keys] holds a post and its own key. *)
Definition keyed_right (key : string) (kp : value * dict) : Prop :=
  post_key_of key kp.2 = Ok kp.1.

(** Readings of the clock: the first of March 2024 at 03:00, and the
    15th at 10:30. *)
Definition now_march_1 : datetime := Datetime 2024 3 1 3 0 0 0 None.
Definition now_march_15 : datetime := Datetime 2024 3 15 10 30 0 0 None.

(** The first of January 2020 at midnight, UTC: an aware datetime. *)
Definition new_year_2020_utc : datetime := Datetime 2020 1 1 0 0 0 0 (Some 0).

(** Posts dated by an aware datetime, by a naive one, by a string with
    the UTC marker, by a string that is no date, and not dated. *)
Definition post_dated_aware : dict := {[ "date_posted" := VDate new_year_2020_utc ]}.
Definition post_dated_old : dict :=
  {[ "date_posted" := VDate (Datetime 2024 2 20 3 0 0 0 None) ]}.
Definition post_dated_recent : dict :=
  {[ "date_posted" := VDate (Datetime 2024 2 23 3 0 0 0 None) ]}.
Definition post_dated_z : dict :=
  {[ "date_posted" := VStr (str "2020-01-01T00:00:00Z") ]}.
Definition post_dated_text_old : dict :=
  {[ "date_posted" := VStr (str "2024-02-20T03:00:00") ]}.
Definition post_dated_garbage : dict :=
  {[ "date_posted" := VStr (str "yesterday") ]}.
Definition post_undated : dict := {[ "text" := VStr (str "no date") ]}.



(** Whitespace in [s] is made of single spaces only; [after_space] tells
    that the character before [s] is a space. *)
Fixpoint single_spaced (after_space : bool) (s : pystr) : bool :=
  match s with
  | [] => true
  | c :: s' =>
      if Py.isspace c
      then Ascii.eqb c " "%char && negb after_space && single_spaced true s'
      else single_spaced false s'
  end.

(** [s] does not begin with whitespace. *)
Definition no_lead (s : pystr) : bool :=
  match s with
  | [] => true
  | c :: _ => negb (Py.isspace c)
  end.

(** The blocks of [clean_post_data] as functions of the contents of
    [cleaned]: the contents when the block ends, and how it ends. *)
Definition text_step (d : dict) : dict * res unit :=
  match d !! "text" with
  | None => (d, Ok tt)
  | Some text =>
      match normalize_text text with
      | Raise e => (d, Raise e)
      | Ok t =>
          let d1 := <["text" := VStr t]> d in
          match extract_text_snippet (VStr t) default_max_length with
          | Raise e => (d1, Raise e)
          | Ok s => (<["text_snippet" := VStr s]> d1, Ok tt)
          end
      end
  end.

Definition url_step (field : string) (d : dict) : dict * res unit :=
  match d !! field with
  | None => (d, Ok tt)
  | Some url =>
      if truthy url
      then
        match url with
        | VStr u =>
            if Py.startswith u (str "http") then (d, Ok tt)
            else (<[field := VStr (base_url_default ++ u)]> d, Ok tt)
        | _ => (d, Raise AttributeError)
        end
      else (d, Ok tt)
  end.

Definition date_step `{IsoParser} (now : datetime) (d : dict) : dict * res unit :=
  match d !! "date_posted" with
  | Some (VStr s) =>
      (<["date_posted" := VDate (try_except (fromisoformat s) now)]> d, Ok tt)
  | _ => (d, Ok tt)
  end.

Definition then_step (s1 s2 : dict -> dict * res unit) (d : dict) : dict * res unit :=
  match s1 d with
  | (d1, Ok _) => s2 d1
  | (d1, Raise e) => (d1, Raise e)
  end.

Definition clean_steps `{IsoParser} (now : datetime) : dict -> dict * res unit :=
  then_step text_step
    (then_step (url_step "post_url")
       (then_step (url_step "author_url") (date_step now))).

(** A computation touches only the newest object of the heap, and
    acts on its contents as [s]. *)
Definition acts_as (m : loc -> M unit) (s : dict -> dict * res unit) : Prop :=
  forall (h : heap) (d : dict),
    run (m (length h)) (h ++ [d]) = (h ++ [(s d).1], (s d).2).

(** The contents of a cleaned record: the text is normalized and the
    snippet is the one of the text, a URL is empty or starts with
    [http], and the date is not a string. *)
Definition text_clean (d : dict) : Prop :=
  match d !! "text" with
  | None => True
  | Some v =>
      exists t s,
        v = VStr t /\ normalize_text (VStr t) = Ok t
        /\ extract_text_snippet (VStr t) default_max_length = Ok s
        /\ d !! "text_snippet" = Some (VStr s)
  end.

Definition url_clean (field : string) (d : dict) : Prop :=
  match d !! field with
  | None => True
  | Some v => truthy v = false \/ exists u, v = VStr u /\ Py.startswith u (str "http") = true
  end.

Definition date_clean (d : dict) : Prop :=
  match d !! "date_posted" with
  | Some (VStr _) => False
  | _ => True
  end.

Definition cleaned_ok (d : dict) : Prop :=
  text_clean d /\ url_clean "post_url" d /\ url_clean "author_url" d /\ date_clean d.

(** The first and the last block of [clean_post_data]. *)
Definition text_block (cleaned : loc) : M unit :=
  has_text ← has_key cleaned "text";
  if has_text : bool
  then
    text ← getitem cleaned "text";
    text ← lift (normalize_text text);
    setitem cleaned "text" (VStr text);;
    text ← getitem cleaned "text";
    snippet ← lift (extract_text_snippet text default_max_length);
    setitem cleaned "text_snippet" (VStr snippet)
  else mret tt.

Definition date_block `{IsoParser} (now : datetime) (cleaned : loc) : M unit :=
  has_date ← has_key cleaned "date_posted";
  if has_date : bool
  then
    date_posted ← getitem cleaned "date_posted";
    match date_posted with
    | VStr date_posted =>
        setitem cleaned "date_posted"
          (VDate (try_except (fromisoformat date_posted) now))
    | _ => mret tt
    end
  else mret tt.

(** A post as scraped: relative URLs, loose whitespace, a date as text. *)
Definition post_raw : dict :=
  <[ "post_url" := VStr (str "/posts/1") ]>
  (<[ "author_url" := VStr (str "https://www.linkedin.com/in/ann") ]>
  (<[ "author_name" := VStr (str "Ann") ]>
  (<[ "text" := VStr (str "  We are   hiring engineers ") ]>
  (<[ "date_posted" := VStr (str "2024-02-20T03:00:00") ]>
  (<[ "likes" := VInt 3 ]> ∅))))).

(** The sort key of the post [l] is an [int]. *)
Definition int_scored (h : heap) (l : loc) : Prop :=
  exists n, dict_get_or (contents h l) "score" (VInt 0) = VInt n.

(** Descending order of the keys, and of the scores of posts. *)
Definition key_ge {A : Type} (a b : Z * A) : Prop := fst b <= fst a.
Definition score_ge (h : heap) (a b : loc) : Prop := score_of h b <= score_of h a.

(** Four posts whose scores for the keyword [hiring] are 3, 1, 3, 2. *)
Definition ranking_heap : heap :=
  [ {[ "text" := VStr (str "hiring, hiring and hiring") ]};
    {[ "text" := VStr (str "we are hiring") ]};
    {[ "text" := VStr (str "Hiring! Hiring! Hiring!") ]};
    {[ "text" := VStr (str "hiring now, hiring soon") ]} ].

(** Pairs of a key and a post where the key is the score of the post. *)
Definition decorated (f : loc -> Z) (p : Z * loc) : Prop := fst p = f (snd p).


Definition node_link_only : soup_node :=
  {| find_post_link := Some (Link (Some (str "/posts/7")) []);
     find_author_link := None;
     find_description := None;
     find_span_ltr := None;
     find_div_text := None;
     find_time := None;
     find_like_string := None;
     find_comment_string := None |}.

Definition node_complete : soup_node :=
  {| find_post_link := Some (Link (Some (str "/posts/7")) []);
     find_author_link := Some (Link (Some (str "/in/ann")) (str "Ann"));
     find_description := Some (str "Hiring  now");
     find_span_ltr := None;
     find_div_text := None;
     find_time := None;
     find_like_string := Some (str "12 likes");
     find_comment_string := None |}.

(** The same evidence on the browser page. *)
Definition element_text_only : page_element :=
  {| query_post_link := None;
     query_author_link := Some (Link (Some (str "/in/ann")) (str "Ann"));
     query_text := [Some (str "Hiring now"); None; None];
     query_time := None;
     query_likes := Some (str "12");
     query_comments := None;
     query_any_link := Some (Link (Some (str "/in/ann")) (str "Ann"));
     inner_text := Ok (str "Ann Hiring now 12") |}.

Definition element_link_only : page_element :=
  {| query_post_link := Some (Link (Some (str "/posts/7")) []);
     query_author_link := None;
     query_text := [None; None; None];
     query_time := None;
     query_likes := None;
     query_comments := None;
     query_any_link := Some (Link (Some (str "/posts/7")) []);
     inner_text := Ok [] |}.

Definition element_empty : page_element :=
  {| query_post_link := None;
     query_author_link := None;
     query_text := [None; None; None];
     query_time := None;
     query_likes := None;
     query_comments := None;
     query_any_link := None;
     inner_text := Ok [] |}.

(** The field [k] of the record that an adapter returns, if it returns
    one. *)
Definition returned_field (result : heap * res (option loc)) (k : string) : option value :=
  match result with
  | (h, Ok (Some l)) => contents h l !! k
  | _ => None
  end.


(** The loop of [deduplicate_posts] can compute the key of the post: the
    key field is not empty, or the text is a string or missing. *)
Definition keyable (key : string) (post : dict) : Prop :=
  truthy (dict_get post key) = true \/ text_is_str post.

(** A lowercase hexadecimal digit. *)
Definition is_hex (c : ascii) : bool :=
  Py.between 48 (Py.ord c) 57 || Py.between 97 (Py.ord c) 102.

(** Not later than [now], by fields: the same year, minute, second,
    microsecond and time zone; month, day and hour not greater. *)
Definition not_after_by_fields (now d : datetime) : Prop :=
  year d = year now /\ month d <= month now /\ day d <= day now
  /\ hour d <= hour now /\ minute d = minute now /\ second d = second now
  /\ microsecond d = microsecond now /\ tzinfo d = tzinfo now.

(** * Properties *)

(** ** The result monad *)

Lemma res_bind_Ok {A B : Type} (f : A -> res B) (a : A) : Ok a ≫= f = f a.
Proof. reflexivity. Qed.

Lemma res_bind_Raise {A B : Type} (f : A -> res B) (e : exn) : Raise e ≫= f = Raise e.
Proof. reflexivity. Qed.

Lemma res_bind_inv {A B : Type} (f : A -> res B) (m : res A) (b : B) :
  m ≫= f = Ok b -> exists a, m = Ok a /\ f a = Ok b.
Proof. destruct m as [a|e]; [eauto | discriminate]. Qed.

(** ** Strings *)

Section Strings.

Lemma slice_to_take (s : pystr) (n : Z) :
  0 <= n -> Py.slice_to s n = take (Z.to_nat n) s.
Proof.
  intros Hn. unfold Py.slice_to.
  destruct (Z.ltb_spec n 0); [lia|].
  destruct (Z.le_gt_cases n (Z.of_nat (length s))).
  - now rewrite Z.min_l by lia.
  - rewrite Z.min_r by lia. rewrite Nat2Z.id.
    rewrite !take_ge; [reflexivity | lia | lia].
Qed.

Lemma rfind_range (s : pystr) (c : ascii) :
  -1 <= Py.rfind s c < Py.len s.
Proof.
  unfold Py.len. induction s as [|x s IH]; simpl Py.rfind.
  - simpl. lia.
  - rewrite length_cons.
    destruct (Z.leb_spec 0 (Py.rfind s c)); [lia|].
    destruct (Ascii.eqb x c); lia.
Qed.

(** [rfind] finds the last occurrence. *)
Lemma rfind_found (s : pystr) (c : ascii) :
  0 <= Py.rfind s c ->
  s !! Z.to_nat (Py.rfind s c) = Some c
  /\ forall j, (Z.to_nat (Py.rfind s c) < j)%nat -> s !! j <> Some c.
Proof.
  induction s as [|x s IH]; simpl Py.rfind.
  - lia.
  - destruct (Z.leb_spec 0 (Py.rfind s c)) as [Hr|Hr].
    + intros _. destruct (IH Hr) as [Hat Hlast].
      replace (Z.to_nat (Py.rfind s c + 1)) with (S (Z.to_nat (Py.rfind s c))) by lia.
      split; [exact Hat|].
      intros [|j] Hj; [lia|]. simpl. apply Hlast. lia.
    + destruct (Ascii.eqb_spec x c) as [->|Hne]; [|lia].
      intros _. split; [reflexivity|].
      intros [|j] Hj; [lia|]. simpl. intros Hin.
      pose proof (rfind_range s c) as Hrange.
      assert (Hno : forall t : pystr, Py.rfind t c < 0 -> forall i, t !! i <> Some c).
      { clear. induction t as [|y t IHt]; simpl Py.rfind; intros Hlt i.
        - now rewrite lookup_nil.
        - destruct (Z.leb_spec 0 (Py.rfind t c)); [lia|].
          destruct (Ascii.eqb_spec y c); [lia|].
          destruct i as [|i]; simpl; [congruence|]. apply IHt. lia. }
      exact (Hno s Hr j Hin).
Qed.

Lemma len_app (s t : pystr) : Py.len (s ++ t) = Py.len s + Py.len t.
Proof. unfold Py.len. rewrite length_app. lia. Qed.

End Strings.

(** ** The snippet *)

Section Snippet.


Lemma elem_of_zrange (lo : Z) (n : nat) (x : Z) :
  lo <= x < lo + Z.of_nat n -> In x (zrange lo n).
Proof.
  intros Hx. unfold zrange. apply in_map_iff.
  exists (Z.to_nat (x - lo)). split; [lia|].
  apply in_seq. lia.
Qed.


Lemma threshold_checked : forallb threshold_agrees (zrange 0 1001) = true.
Proof. vm_compute. reflexivity. Qed.

(** For lengths up to 1000 the floating-point product decides exactly
    "strictly more than four fifths". *)
Lemma threshold_exact (max_length last_space : Z) :
  0 <= max_length <= 1000 ->
  -1 <= last_space <= max_length ->
  Py.int_gt_float last_space (Py.int_mul_float max_length Py.float_0_8)
  = (4 * max_length <? 5 * last_space).
Proof.
  intros Hm Hl.
  pose proof threshold_checked as Hall.
  rewrite forallb_forall in Hall.
  specialize (Hall max_length (elem_of_zrange 0 1001 max_length ltac:(lia))).
  unfold threshold_agrees in Hall. rewrite forallb_forall in Hall.
  specialize (Hall last_space (elem_of_zrange (-1) (Z.to_nat max_length + 2) last_space ltac:(lia))).
  now apply Bool.eqb_prop in Hall.
Qed.

End Snippet.

Section SnippetClaims.


(** C4, as stated, fails: with the last space exactly at 80% of
    [max_length] the snippet is not cut at that space but at
    [max_length]. *)
Lemma snippet_space_at_exactly_80_percent :
  Py.len text_space_at_160 > 200
  /\ Py.rfind (Py.slice_to text_space_at_160 200) " "%char = 160
  /\ 5 * 160 = 4 * 200
  /\ extract_text_snippet (VStr text_space_at_160) 200
     = Ok (take 200 text_space_at_160 ++ str "...")
  /\ extract_text_snippet (VStr text_space_at_160) 200
     <> Ok (take 160 text_space_at_160 ++ str "...").
Proof.
  assert (Hrun : extract_text_snippet (VStr text_space_at_160) 200
                 = Ok (take 200 text_space_at_160 ++ str "..."))
    by (vm_compute; reflexivity).
  repeat split; try (vm_compute; reflexivity); try exact Hrun.
  rewrite Hrun. intros Heq. apply (f_equal (fun r => match r with Ok s => length s | Raise _ => O end)) in Heq.
  vm_compute in Heq. discriminate.
Qed.

(** C4, amended: a text longer than [max_length] is cut to
    [max_length] characters, and cut again at the last space of that
    prefix when the space lies strictly beyond 80% of [max_length]; a
    space exactly at 80% does not count. The result ends with the
    ellipsis and has at most [max_length + 3] characters. A text of at
    most [max_length] characters, the empty one included, is returned
    unchanged. *)
Theorem extract_text_snippet_spec (T : pystr) (max_length : Z) :
  0 <= max_length <= 1000 ->
  let cut := take (Z.to_nat max_length) T in
  let last_space := Py.rfind cut " "%char in
  exists snippet,
    extract_text_snippet (VStr T) max_length = Ok snippet
    /\ (Py.len T <= max_length -> snippet = T)
    /\ (Py.len T > max_length ->
        snippet = (if 4 * max_length <? 5 * last_space
                   then take (Z.to_nat last_space) cut else cut) ++ str "..."
        /\ Py.len snippet <= max_length + 3).
Proof.
  intros Hm cut last_space. unfold extract_text_snippet. simpl truthy.
  destruct (Py.nonempty T) eqn:Hne; simpl negb; cbv iota.
  2:{ destruct T; [|discriminate].
      exists []. split; [reflexivity|]. split; [reflexivity|].
      intros Hgt. exfalso. unfold Py.len in Hgt. simpl length in Hgt. lia. }
  destruct (Z.leb_spec (Py.len T) max_length) as [Hshort|Hlong].
  { exists T. split; [reflexivity|]. split; [reflexivity|]. lia. }
  rewrite (slice_to_take T max_length) by lia. fold cut. fold last_space.
  assert (Hcut : Py.len cut = max_length).
  { unfold cut, Py.len in *. rewrite length_take. lia. }
  pose proof (rfind_range cut " "%char) as Hrange. fold last_space in Hrange.
  rewrite threshold_exact by lia.
  eexists. split; [reflexivity|]. split; [lia|]. intros _.
  destruct (Z.ltb_spec (4 * max_length) (5 * last_space)) as [Hfar|Hnear].
  - rewrite (slice_to_take cut last_space) by lia.
    split; [reflexivity|].
    rewrite len_app. unfold Py.len in *. rewrite length_take. simpl. lia.
  - split; [reflexivity|]. rewrite len_app. unfold Py.len in *. simpl. lia.
Qed.

Lemma extract_text_snippet_spec_witness :
  exists snippet,
    extract_text_snippet (VStr text_space_at_160) 200 = Ok snippet
    /\ (Py.len text_space_at_160 <= 200 -> snippet = text_space_at_160)
    /\ (Py.len text_space_at_160 > 200 ->
        snippet =
          (if 4 * 200 <? 5 * Py.rfind (take (Z.to_nat 200) text_space_at_160) " "%char
           then take (Z.to_nat (Py.rfind (take (Z.to_nat 200) text_space_at_160) " "%char))
                     (take (Z.to_nat 200) text_space_at_160)
           else take (Z.to_nat 200) text_space_at_160) ++ str "..."
        /\ Py.len snippet <= 200 + 3).
Proof. apply (extract_text_snippet_spec text_space_at_160 200). lia. Defined.

End SnippetClaims.

(** ** The relevance score *)

Section Score.


Lemma score_loop_sum (text_lower : pystr) (keywords : list pystr) (score : Z) :
  fold_left (fun score keyword => score + Re.count_word (Py.lower keyword) text_lower)
            keywords score
  = score + total_matches text_lower keywords.
Proof.
  revert score. induction keywords as [|k ks IH]; intros score; simpl.
  - unfold total_matches. simpl. lia.
  - rewrite IH. unfold total_matches. simpl. lia.
Qed.

Lemma total_matches_perm (text_lower : pystr) (K1 K2 : list pystr) :
  Permutation K1 K2 -> total_matches text_lower K1 = total_matches text_lower K2.
Proof.
  unfold total_matches.
  induction 1 as [|k l l' _ IH|a b l|l l' l'' _ IH1 _ IH2]; simpl; lia.
Qed.

Lemma score_no_keywords (T : value) : calculate_relevance_score T [] = Ok 0.
Proof. unfold calculate_relevance_score. now destruct (truthy T). Qed.

Lemma score_empty_text (K : list pystr) : calculate_relevance_score (VStr []) K = Ok 0.
Proof. reflexivity. Qed.

(** C9: the score does not depend on the order of the keywords. *)
Theorem calculate_relevance_score_permutation (T : value) (K1 K2 : list pystr) :
  Permutation K1 K2 ->
  calculate_relevance_score T K1 = calculate_relevance_score T K2.
Proof.
  intros Hperm. unfold calculate_relevance_score.
  assert (Hnil : match K1 with [] => false | _ => true end
                 = match K2 with [] => false | _ => true end).
  { destruct K1, K2; try reflexivity.
    - now apply Permutation_nil_cons in Hperm.
    - apply Permutation_sym in Hperm. now apply Permutation_nil_cons in Hperm. }
  rewrite Hnil.
  destruct (negb (truthy T) || negb _); [reflexivity|].
  destruct T as [|text| |]; try reflexivity.
  f_equal. rewrite !score_loop_sum. f_equal.
  now apply total_matches_perm.
Qed.

Lemma calculate_relevance_score_permutation_witness :
  calculate_relevance_score (VStr (str "We are hiring engineers; hiring now"))
                            [str "hiring"; str "engineers"; str "now"]
  = calculate_relevance_score (VStr (str "We are hiring engineers; hiring now"))
                            [str "now"; str "hiring"; str "engineers"].
Proof.
  apply calculate_relevance_score_permutation.
  apply Permutation_sym, (Permutation_cons_app [str "hiring"; str "engineers"] []).
  simpl. apply Permutation_refl.
Defined.

Example score_hiring :
  calculate_relevance_score (VStr (str "We are hiring engineers; hiring now"))
                            [str "hiring"; str "engineers"; str "now"] = Ok 4.
Proof. vm_compute. reflexivity. Qed.

End Score.

(** ** Deduplication *)

Section Dedup.

Lemma dedup_loop_kept (key : string) (posts : list dict)
    (seen : list value) (unique_posts : list dict) :
  dedup_loop key posts seen unique_posts
  = (keyed ← with_keys key posts; Ok (unique_posts ++ map snd (kept seen keyed))).
Proof.
  revert seen unique_posts.
  induction posts as [|post rest IH]; intros seen unique_posts; simpl.
  - now rewrite app_nil_r.
  - destruct (post_key_of key post) as [k|e]; simpl; [|reflexivity].
    destruct (truthy k && negb (bool_decide (k ∈ seen))) eqn:Hnew.
    + rewrite IH. destruct (with_keys key rest) as [keyed|e]; simpl; [|reflexivity].
      rewrite Hnew. simpl. now rewrite <- app_assoc.
    + destruct (negb (truthy k)) eqn:Hfalsy.
      * rewrite IH. destruct (with_keys key rest) as [keyed|e]; simpl; [|reflexivity].
        rewrite Hnew, Hfalsy. simpl. now rewrite <- app_assoc.
      * rewrite IH. destruct (with_keys key rest) as [keyed|e]; simpl; [|reflexivity].
        now rewrite Hnew, Hfalsy.
Qed.

Lemma with_keys_right (key : string) (posts : list dict) (keyed : list (value * dict)) :
  with_keys key posts = Ok keyed ->
  Forall (keyed_right key) keyed /\ map snd keyed = posts.
Proof.
  revert keyed. induction posts as [|post rest IH]; intros keyed; simpl.
  - intros [= <-]. split; [constructor | reflexivity].
  - destruct (post_key_of key post) as [k|e] eqn:Hk; simpl; [|discriminate].
    destruct (with_keys key rest) as [r|e]; simpl; [|discriminate].
    intros [= <-]. destruct (IH r eq_refl) as [Hall Hsnd].
    split; [constructor; [exact Hk | exact Hall] | simpl; now rewrite Hsnd].
Qed.

Lemma with_keys_of_right (key : string) (keyed : list (value * dict)) :
  Forall (keyed_right key) keyed -> with_keys key (map snd keyed) = Ok keyed.
Proof.
  induction 1 as [|[k post] keyed Hk _ IH]; simpl; [reflexivity|].
  unfold keyed_right in Hk. simpl in Hk. now rewrite Hk, IH.
Qed.

Lemma kept_right (key : string) (seen : list value) (keyed : list (value * dict)) :
  Forall (keyed_right key) keyed -> Forall (keyed_right key) (kept seen keyed).
Proof.
  intros Hall. revert seen.
  induction Hall as [|[k post] keyed Hk _ IH]; intros seen; simpl; [constructor|].
  destruct (truthy k && negb (bool_decide (k ∈ seen))).
  - constructor; [exact Hk | apply IH].
  - destruct (negb (truthy k)); [constructor; [exact Hk | apply IH] | apply IH].
Qed.

(** A second pass that starts with fewer keys seen drops nothing. *)
Lemma kept_again (seen seen' : list value) (keyed : list (value * dict)) :
  (forall k, k ∈ seen' -> k ∈ seen) ->
  kept seen' (kept seen keyed) = kept seen keyed.
Proof.
  revert seen seen'.
  induction keyed as [|[k post] keyed IH]; intros seen seen' Hsub; simpl; [reflexivity|].
  destruct (truthy k) eqn:Htruthy; simpl.
  - destruct (bool_decide (k ∈ seen)) eqn:Hseen; simpl.
    + now apply IH.
    + rewrite Htruthy. simpl.
      assert (Hnot : bool_decide (k ∈ seen') = false).
      { apply bool_decide_eq_false. apply bool_decide_eq_false in Hseen.
        intros Hin. apply Hseen, Hsub, Hin. }
      rewrite Hnot. simpl. f_equal. apply IH.
      intros k' Hin. apply elem_of_cons in Hin as [->|Hin].
      * apply elem_of_cons. now left.
      * apply elem_of_cons. right. now apply Hsub.
  - rewrite Htruthy. simpl. f_equal. now apply IH.
Qed.

(** C8: deduplicating the output of [deduplicate_posts] returns it
    unchanged; if the first pass raises, so does the composition. *)
Theorem deduplicate_posts_idempotent (posts : list dict) (key : string) :
  (out ← deduplicate_posts posts key; deduplicate_posts out key)
  = deduplicate_posts posts key.
Proof.
  unfold deduplicate_posts. rewrite dedup_loop_kept.
  destruct (with_keys key posts) as [keyed|e] eqn:Hkeys; simpl; [|reflexivity].
  rewrite dedup_loop_kept.
  apply with_keys_right in Hkeys as [Hright _].
  rewrite (with_keys_of_right key (kept [] keyed)) by now apply kept_right.
  simpl. now rewrite kept_again.
Qed.

(** The digest has 16 bytes and its hexadecimal form 32 characters. *)
Lemma md5_digest_length (msg : list Z) : length (MD5.digest msg) = 16%nat.
Proof.
  unfold MD5.digest.
  set (st := fold_left MD5.compress _ MD5.init).
  now rewrite !length_app.
Qed.

Lemma md5_hexdigest_length (msg : list Z) : length (MD5.hexdigest msg) = 32%nat.
Proof.
  unfold MD5.hexdigest.
  assert (Hlen : forall bs : list Z, length (flat_map MD5.hex_byte bs) = (2 * length bs)%nat).
  { induction bs as [|b bs IH]; simpl; [reflexivity | rewrite IH; lia]. }
  now rewrite Hlen, md5_digest_length.
Qed.

Lemma md5_hex_nonempty (text : pystr) : Py.nonempty (md5_hex text) = true.
Proof.
  unfold md5_hex. pose proof (md5_hexdigest_length (Py.encode text)) as Hlen.
  now destruct (MD5.hexdigest (Py.encode text)).
Qed.


(** On a post whose key can be computed the loop computes the key of
    the chain. *)
Lemma post_key_of_chain (key : string) (post : dict) :
  keyable key post ->
  exists k, post_key_of key post = Ok k /\ as_key k = key_by_the_chain key post.
Proof.
  unfold keyable, text_is_str, post_key_of, key_by_the_chain, text_of, dict_get_or, as_key.
  intros Htext.
  destruct (truthy (dict_get post key)) eqn:Hkey; simpl.
  { rewrite Hkey. simpl. eexists. split; [reflexivity|]. now rewrite Hkey. }
  destruct Htext as [Htext|Htext]; [discriminate|].
  assert (Hpost_url : String.eqb key "post_url" = bool_decide (key = "post_url")).
  { destruct (String.eqb_spec key "post_url") as [->|Hne].
    - now rewrite bool_decide_eq_true_2.
    - now rewrite bool_decide_eq_false_2. }
  rewrite Hpost_url.
  destruct (post !! "text") as [[|s| |]|] eqn:Hlookup; try contradiction; simpl.
  - destruct (bool_decide (key = "post_url")); simpl.
    + destruct (Py.nonempty s) eqn:Hs; simpl.
      * fold (md5_hex s).
        eexists. split; [reflexivity|]. unfold truthy. now rewrite md5_hex_nonempty.
      * rewrite Hkey. simpl.
        assert (Hnil : s = []) by (now destruct s). subst s. simpl.
        eexists. split; [reflexivity|]. now rewrite Hkey.
    + rewrite Hkey. simpl. rewrite slice_to_take by lia.
      change (Z.to_nat 50) with 50%nat.
      destruct (Py.nonempty (take 50 s)) eqn:Hs; simpl.
      * eexists. split; [reflexivity|]. unfold truthy. now rewrite md5_hex_nonempty.
      * eexists. split; [reflexivity|]. now rewrite Hkey.
  - rewrite andb_false_r.
    destruct (bool_decide (key = "post_url")); simpl; rewrite Hkey; simpl;
      (eexists; split; [reflexivity | now rewrite Hkey]).
Qed.

Lemma with_keys_chain (key : string) (posts : list dict) :
  Forall (keyable key) posts ->
  exists keyed,
    with_keys key posts = Ok keyed
    /\ map snd keyed = posts
    /\ map (fun kp => as_key kp.1) keyed = map (key_by_the_chain key) posts.
Proof.
  induction 1 as [|post rest Htext _ IH]; simpl.
  - now exists [].
  - destruct (post_key_of_chain key post Htext) as (k & Hk & Hchain).
    destruct IH as (keyed & Hkeys & Hsnd & Hfst).
    exists ((k, post) :: keyed). rewrite Hk, Hkeys. simpl.
    now rewrite Hsnd, Hfst, Hchain.
Qed.

Lemma first_of_its_key_middle {K : Type} `{EqDecision K}
    (pre keys : list (option K)) (k : option K) :
  first_of_its_key (pre ++ k :: keys) (length pre + 0)
  = match k with
    | Some k' => bool_decide (Some k' ∉ pre)
    | None => true
    end.
Proof.
  unfold first_of_its_key. rewrite Nat.add_0_r.
  rewrite (list_lookup_middle pre keys k (length pre) eq_refl).
  now rewrite take_app_length.
Qed.

Lemma keep_from_cons {K A : Type} `{EqDecision K}
    (pre keys : list (option K)) (k : option K) (post : A) (posts : list A) :
  keep_from pre (k :: keys) (post :: posts)
  = (if match k with
        | Some k' => bool_decide (Some k' ∉ pre)
        | None => true
        end then [post] else [])
    ++ keep_from (pre ++ [k]) keys posts.
Proof.
  unfold keep_from. rewrite imap_cons. simpl concat.
  rewrite first_of_its_key_middle. f_equal. f_equal.
  apply imap_ext. intros i x _. simpl.
  rewrite <- app_assoc. simpl. rewrite length_app. simpl.
  now replace (length pre + S i)%nat with (length pre + 1 + i)%nat by lia.
Qed.

(** The loop with its set [seen] and the positional reading agree when
    [seen] holds the keys met so far. *)
Lemma kept_keep_from (seen : list value) (pre : list (option value))
    (keyed : list (value * dict)) :
  (forall v, v ∈ seen <-> Some v ∈ pre) ->
  map snd (kept seen keyed)
  = keep_from pre (map (fun kp => as_key kp.1) keyed) (map snd keyed).
Proof.
  revert seen pre.
  induction keyed as [|[k post] keyed IH]; intros seen pre Hinv; simpl; [reflexivity|].
  rewrite keep_from_cons.
  assert (Hpre : forall v, v ∈ seen -> Some v ∈ pre ++ [as_key k]).
  { intros v Hv. apply elem_of_app. left. now apply Hinv. }
  unfold as_key in *.
  destruct (truthy k) eqn:Htruthy; simpl.
  - destruct (decide (k ∈ seen)) as [Hin|Hnin].
    + rewrite (bool_decide_eq_true_2 _ Hin). simpl.
      rewrite bool_decide_eq_false_2 by (intros Hno; apply Hno, (proj1 (Hinv k)), Hin).
      simpl. apply IH. intros v. split; [apply Hpre|].
      intros Hv. apply elem_of_app in Hv as [Hv|Hv]; [now apply Hinv|].
      apply list_elem_of_singleton in Hv. now injection Hv as ->.
    + rewrite (bool_decide_eq_false_2 _ Hnin). simpl.
      rewrite bool_decide_eq_true_2 by (intros Hyes; apply Hnin, (proj2 (Hinv k)), Hyes).
      simpl. f_equal. apply IH. intros v. split.
      * intros Hv. apply elem_of_cons in Hv as [->|Hv]; [|now apply Hpre].
        apply elem_of_app. right. now apply list_elem_of_singleton.
      * intros Hv. apply elem_of_cons.
        apply elem_of_app in Hv as [Hv|Hv]; [right; now apply Hinv|].
        apply list_elem_of_singleton in Hv. left. now injection Hv.
  - f_equal. apply IH. intros v. split; [apply Hpre|].
    intros Hv. apply elem_of_app in Hv as [Hv|Hv]; [now apply Hinv|].
    apply list_elem_of_singleton in Hv. discriminate.
Qed.

(** C3, as stated, fails for a key field other than ["post_url"]: the
    code then skips the hash of the full text, so that two posts which
    differ only after their first 50 characters get the same key and the
    second is dropped, where the chain of the claim gives them different
    keys and keeps both. *)
Lemma dedup_other_key_field_skips_full_text :
  deduplicate_posts [post_long_x; post_long_y] "author_url" = Ok [post_long_x]
  /\ keep_first (map (key_by_the_words "author_url") [post_long_x; post_long_y])
                [post_long_x; post_long_y]
     = [post_long_x; post_long_y].
Proof. split; vm_compute; reflexivity. Qed.

(** C3, amended: on posts whose text is a string or missing (or whose
    key field is not empty), [deduplicate_posts] keeps exactly the first record for each key and every record without
    a key, in the order of the input, where the key of a record is the
    value of [key_field] if non-empty, else, for the key field
    ["post_url"] only, the hash of the full text if non-empty, else the
    hash of the first 50 characters of the text if non-empty, else
    none. *)
Theorem deduplicate_posts_keeps_first (posts : list dict) (key : string) :
  Forall (keyable key) posts ->
  deduplicate_posts posts key
  = Ok (keep_first (map (key_by_the_chain key) posts) posts).
Proof.
  intros Htext. unfold deduplicate_posts. rewrite dedup_loop_kept.
  destruct (with_keys_chain key posts Htext) as (keyed & Hkeys & Hsnd & Hfst).
  rewrite Hkeys. simpl. f_equal.
  rewrite (kept_keep_from [] [] keyed).
  - rewrite Hsnd, Hfst. reflexivity.
  - intros v. split; intros Hin; inversion Hin.
Qed.

Lemma deduplicate_posts_keeps_first_witness :
  deduplicate_posts
    [post_hiring_1; post_with_url; post_keyless; post_hiring_2; post_keyless] "post_url"
  = Ok (keep_first
          (map (key_by_the_chain "post_url")
               [post_hiring_1; post_with_url; post_keyless; post_hiring_2; post_keyless])
          [post_hiring_1; post_with_url; post_keyless; post_hiring_2; post_keyless]).
Proof.
  apply deduplicate_posts_keeps_first.
  repeat (constructor; [right; vm_compute; exact I|]). constructor.
Defined.

(** Two posts without URL and with the same text have the same key; the
    posts without any key all stay. *)
Example dedup_same_text :
  deduplicate_posts
    [post_hiring_1; post_with_url; post_keyless; post_hiring_2; post_keyless] "post_url"
  = Ok [post_hiring_1; post_with_url; post_keyless; post_keyless].
Proof. vm_compute. reflexivity. Qed.

End Dedup.

(** ** Relative dates *)

Section RelativeDates.

(** C5: five hours before 03:00 on the first of March is 22:00 on the
    29th of February, and three days before it is the 27th; the code
    asks for hour -2 and for day -2 of the same date, the constructor
    refuses both, and the bare [except] falls through to [return now]. *)
Theorem parse_relative_date_across_midnight :
  parse_relative_date now_march_1 (str "5 hours ago") = Some now_march_1
  /\ hours_before now_march_1 5 = Ok (Datetime 2024 2 29 22 0 0 0 None)
  /\ parse_relative_date now_march_1 (str "3 days ago") = Some now_march_1
  /\ days_before now_march_1 3 = Ok (Datetime 2024 2 27 3 0 0 0 None).
Proof. repeat split; vm_compute; reflexivity. Qed.

(** Away from a boundary the replaced field is the subtraction. *)
Example parse_relative_date_same_day :
  parse_relative_date now_march_15 (str "5 hours ago") = Some (Datetime 2024 3 15 5 30 0 0 None)
  /\ hours_before now_march_15 5 = Ok (Datetime 2024 3 15 5 30 0 0 None)
  /\ parse_relative_date now_march_15 (str "2 weeks ago") = Some (Datetime 2024 3 1 10 30 0 0 None)
  /\ days_before now_march_15 14 = Ok (Datetime 2024 3 1 10 30 0 0 None).
Proof. repeat split; vm_compute; reflexivity. Qed.

(** A month is replaced without regard to the day: one month before the
    31st of March is asked as the 31st of February, refused, and the
    result is [now]. *)
Example parse_relative_date_month_end :
  parse_relative_date (Datetime 2024 3 31 12 0 0 0 None) (str "1 month ago")
  = Some (Datetime 2024 3 31 12 0 0 0 None).
Proof. vm_compute. reflexivity. Qed.

End RelativeDates.

(** ** The date filter *)

Section DateFilterProps.
Context `{IsoParser}.



(** No limit, or a limit that is not positive: the list is returned as
    it is. *)
Lemma filter_posts_by_date_no_limit (now : datetime) (posts : list dict)
    (days_limit : option Z) :
  from_option (fun n => n <= 0) True days_limit ->
  filter_posts_by_date now posts days_limit = Ok posts.
Proof.
  destruct days_limit as [n|]; simpl; [|reflexivity].
  intros Hn. destruct (Z.eqb_spec n 0); [reflexivity|].
  now destruct (Z.leb_spec n 0); [|lia].
Qed.


(** C2: a post whose date is an aware datetime object stops the filter
    with a [TypeError]: the cutoff is naive and the comparison of the
    two is outside any [try]. *)
Theorem filter_posts_by_date_raises_on_aware :
  filter_posts_by_date now_march_1 [post_dated_aware] (Some 7) = Raise TypeError.
Proof. vm_compute. reflexivity. Qed.

End DateFilterProps.

(** The same date as a string parses, is four years before the cutoff,
    and the post is kept: the comparison raises inside the [try]. *)
Example filter_keeps_old_utc_string :
  fromisoformat (IsoParser := iso_basic)
    (Py.replace_char "Z"%char (str "+00:00") (str "2020-01-01T00:00:00Z"))
  = Ok new_year_2020_utc
  /\ filter_posts_by_date (H := iso_basic) now_march_1 [post_dated_z] (Some 7)
     = Ok [post_dated_z].
Proof. split; vm_compute; reflexivity. Qed.

Example filter_week :
  filter_posts_by_date (H := iso_basic) now_march_1
    [post_dated_old; post_dated_recent; post_dated_text_old; post_dated_garbage; post_undated]
    (Some 7)
  = Ok [post_dated_recent; post_dated_garbage; post_undated].
Proof. vm_compute. reflexivity. Qed.

(** ** Normalization *)

Section Normalize.

Lemma sub_spaces_single (b : bool) (s : pystr) :
  single_spaced b (Py.sub_spaces b s) = true.
Proof.
  revert b. induction s as [|c s IH]; intros b; simpl; [reflexivity|].
  destruct (Py.isspace c) eqn:Hc.
  - destruct b; [apply IH|]. simpl. now rewrite IH.
  - simpl. rewrite Hc. apply IH.
Qed.

Lemma sub_spaces_fixed (b : bool) (s : pystr) :
  single_spaced b s = true -> Py.sub_spaces b s = s.
Proof.
  revert b. induction s as [|c s IH]; intros b; simpl; [reflexivity|].
  destruct (Py.isspace c) eqn:Hc.
  - intros Hs. apply andb_prop in Hs as [Hs Hrest]. apply andb_prop in Hs as [Heq Hb].
    apply Ascii.eqb_eq in Heq. subst c. destruct b; [discriminate|].
    now rewrite IH.
  - intros Hs. now rewrite IH.
Qed.

Lemma lstrip_single (b b' : bool) (s : pystr) :
  single_spaced b s = true -> single_spaced b' (Py.lstrip s) = true.
Proof.
  revert b. induction s as [|c s IH]; intros b; simpl; [reflexivity|].
  destruct (Py.isspace c) eqn:Hc.
  - intros Hs. apply andb_prop in Hs as [_ Hrest]. now apply (IH true).
  - intros Hs. simpl. now rewrite Hc.
Qed.

Lemma rstrip_single (b : bool) (s : pystr) :
  single_spaced b s = true -> single_spaced b (Py.rstrip s) = true.
Proof.
  revert b. induction s as [|c s IH]; intros b; simpl; [reflexivity|].
  destruct (Py.isspace c) eqn:Hc.
  - intros Hs. apply andb_prop in Hs as [Hhead Hrest].
    specialize (IH true Hrest).
    destruct (Py.rstrip s) as [|x r]; [reflexivity|].
    simpl. rewrite Hc, Hhead. exact IH.
  - intros Hs. specialize (IH false Hs).
    destruct (Py.rstrip s) as [|x r]; simpl; rewrite Hc; [reflexivity | exact IH].
Qed.

Lemma lstrip_no_lead (s : pystr) : no_lead (Py.lstrip s) = true.
Proof.
  induction s as [|c s IH]; simpl; [reflexivity|].
  destruct (Py.isspace c) eqn:Hc; [exact IH|]. simpl. now rewrite Hc.
Qed.

Lemma rstrip_no_lead (s : pystr) : no_lead s = true -> no_lead (Py.rstrip s) = true.
Proof.
  destruct s as [|c s]; simpl; [reflexivity|].
  intros Hc. destruct (Py.rstrip s); [|exact Hc].
  destruct (Py.isspace c) eqn:Hsp; [discriminate|]. simpl. now rewrite Hsp.
Qed.

Lemma lstrip_fixed (s : pystr) : no_lead s = true -> Py.lstrip s = s.
Proof.
  destruct s as [|c s]; simpl; [reflexivity|].
  now destruct (Py.isspace c).
Qed.

Lemma rstrip_rstrip (s : pystr) : Py.rstrip (Py.rstrip s) = Py.rstrip s.
Proof.
  induction s as [|c s IH]; simpl; [reflexivity|].
  destruct (Py.rstrip s) as [|x r] eqn:Hr.
  - destruct (Py.isspace c) eqn:Hc; simpl; [reflexivity | now rewrite Hc].
  - change (Py.rstrip (c :: x :: r)) with
      (match Py.rstrip (x :: r) with
       | [] => if Py.isspace c then [] else [c]
       | y :: r' => c :: y :: r'
       end).
    now rewrite IH.
Qed.

(** The string part of [normalize_text]. *)
Lemma normalize_text_str (s : pystr) :
  normalize_text (VStr s) = Ok (Py.strip (Py.sub_spaces false s)).
Proof. unfold normalize_text. now destruct s. Qed.

Lemma strip_sub_spaces_fixed (s : pystr) :
  let t := Py.strip (Py.sub_spaces false s) in
  Py.strip (Py.sub_spaces false t) = t.
Proof.
  intros t. subst t. unfold Py.strip.
  set (u := Py.sub_spaces false s).
  assert (Hsingle : single_spaced false (Py.rstrip (Py.lstrip u)) = true).
  { apply rstrip_single, (lstrip_single false), sub_spaces_single. }
  rewrite (sub_spaces_fixed _ _ Hsingle).
  rewrite lstrip_fixed by apply rstrip_no_lead, lstrip_no_lead.
  apply rstrip_rstrip.
Qed.

(** The result of [normalize_text], normalized again, is itself. *)
Lemma normalize_text_fixed (text : value) (t : pystr) :
  normalize_text text = Ok t -> normalize_text (VStr t) = Ok t.
Proof.
  rewrite normalize_text_str. unfold normalize_text.
  destruct (truthy text) eqn:Htruthy; simpl.
  - destruct text as [|s|n|d]; try discriminate.
    intros [= <-]. f_equal. apply strip_sub_spaces_fixed.
  - now intros [= <-].
Qed.

(** [normalize_text] is idempotent, also where it raises. *)
Theorem normalize_text_idempotent (text : value) :
  (t ← normalize_text text; normalize_text (VStr t)) = normalize_text text.
Proof.
  destruct (normalize_text text) as [t|e] eqn:Hnorm; [|reflexivity].
  simpl. exact (normalize_text_fixed text t Hnorm).
Qed.

Lemma normalize_text_fixed_example :
  normalize_text (VStr (str "hiring   now")) = Ok (str "hiring now")
  /\ normalize_text (VStr (str "hiring now")) = Ok (str "hiring now").
Proof.
  assert (Hrun : normalize_text (VStr (str "hiring   now")) = Ok (str "hiring now"))
    by (vm_compute; reflexivity).
  split; [exact Hrun|].
  exact (normalize_text_fixed _ _ Hrun).
Qed.

End Normalize.

(** ** The heap monad *)

Section Heap.

Lemma run_bind {A B : Type} (m : M A) (f : A -> M B) (h : heap) :
  run (m ≫= f) h
  = match run m h with
    | (h', Ok a) => run (f a) h'
    | (h', Raise e) => (h', Raise e)
    end.
Proof. reflexivity. Qed.

Lemma run_ret {A : Type} (a : A) (h : heap) : run (mret a) h = (h, Ok a).
Proof. reflexivity. Qed.

Lemma contents_snoc (h : heap) (d : dict) : contents (h ++ [d]) (length h) = d.
Proof. unfold contents. now rewrite list_lookup_middle. Qed.

Lemma contents_old (h : heap) (d : dict) (l : loc) :
  (l < length h)%nat -> contents (h ++ [d]) l = contents h l.
Proof. intros Hl. unfold contents. now rewrite lookup_app_l. Qed.

Lemma run_has_key_snoc (h : heap) (d : dict) (k : string) :
  run (has_key (length h) k) (h ++ [d])
  = (h ++ [d], Ok (bool_decide (is_Some (d !! k)))).
Proof. unfold has_key. rewrite run_bind. simpl. now rewrite contents_snoc. Qed.

Lemma run_getitem_snoc (h : heap) (d : dict) (k : string) :
  run (getitem (length h) k) (h ++ [d])
  = (h ++ [d], match d !! k with Some v => Ok v | None => Raise KeyError end).
Proof. unfold getitem. rewrite run_bind. simpl. now rewrite contents_snoc. Qed.

Lemma run_setitem_snoc (h : heap) (d : dict) (k : string) (v : value) :
  run (setitem (length h) k v) (h ++ [d]) = (h ++ [<[k:=v]> d], Ok tt).
Proof.
  unfold setitem. simpl. f_equal.
  rewrite <- (Nat.add_0_r (length h)). now rewrite alter_app_r.
Qed.

Lemma has_Some {A : Type} (x : A) : bool_decide (is_Some (Some x)) = true.
Proof. apply bool_decide_eq_true_2. eauto. Qed.

Lemma has_None {A : Type} : bool_decide (is_Some (@None A)) = false.
Proof. apply bool_decide_eq_false_2. now intros [x Hx]. Qed.

Lemma run_dict_copy (h : heap) (l : loc) :
  run (dict_copy l) h = (h ++ [contents h l], Ok (length h)).
Proof. reflexivity. Qed.

End Heap.

(** ** The cleaner *)

Section CleanerProps.
Context `{IsoParser}.

Lemma clean_post_data_blocks (now : datetime) (post : loc) :
  clean_post_data now post
  = (cleaned ← dict_copy post;
     text_block cleaned;;
     complete_url cleaned "post_url";;
     complete_url cleaned "author_url";;
     date_block now cleaned;;
     mret cleaned).
Proof. reflexivity. Qed.

Lemma acts_as_then (m1 m2 : loc -> M unit) (s1 s2 : dict -> dict * res unit) :
  acts_as m1 s1 -> acts_as m2 s2 ->
  acts_as (fun c => m1 c;; m2 c) (then_step s1 s2).
Proof.
  intros H1 H2 h d. cbv beta. rewrite run_bind, H1. unfold then_step.
  destruct (s1 d) as [d1 [[]|e]]; simpl; [apply H2 | reflexivity].
Qed.

Lemma text_block_acts : acts_as text_block text_step.
Proof.
  intros h d. unfold text_block, text_step.
  rewrite run_bind, run_has_key_snoc.
  destruct (d !! "text") as [text|] eqn:Htext;
    [rewrite has_Some | rewrite has_None; reflexivity].
  cbv beta iota.
  rewrite run_bind, run_getitem_snoc, Htext. cbv beta iota.
  rewrite run_bind. unfold lift at 1. cbv beta iota. unfold run at 1.
  destruct (normalize_text text) as [t|e]; [|reflexivity].
  rewrite run_bind, run_setitem_snoc. cbv beta iota.
  rewrite run_bind, run_getitem_snoc, lookup_insert_eq. cbv beta iota.
  rewrite run_bind. unfold lift at 1. unfold run at 1.
  destruct (extract_text_snippet (VStr t) default_max_length) as [s|e]; [|reflexivity].
  now rewrite run_setitem_snoc.
Qed.

Lemma complete_url_acts (field : string) :
  acts_as (fun c => complete_url c field) (url_step field).
Proof.
  intros h d. unfold complete_url, url_step.
  rewrite run_bind, run_has_key_snoc.
  destruct (d !! field) as [url|] eqn:Hurl;
    [rewrite has_Some | rewrite has_None; reflexivity].
  cbv beta iota.
  rewrite run_bind, run_getitem_snoc, Hurl. cbv beta iota.
  destruct (truthy url) eqn:Htruthy; [|reflexivity].
  rewrite run_bind, run_getitem_snoc, Hurl. cbv beta iota.
  rewrite run_bind. unfold lift at 1. unfold run at 1.
  destruct url as [|u|n|dt]; try reflexivity.
  unfold v_startswith.
  destruct (Py.startswith u (str "http")); [reflexivity|].
  cbv beta iota. unfold negb.
  now rewrite run_bind, run_getitem_snoc, Hurl, run_setitem_snoc.
Qed.

Lemma date_block_acts (now : datetime) : acts_as (date_block now) (date_step now).
Proof.
  intros h d. unfold date_block, date_step.
  rewrite run_bind, run_has_key_snoc.
  destruct (d !! "date_posted") as [v|] eqn:Hdate;
    [rewrite has_Some | rewrite has_None; reflexivity].
  cbv beta iota.
  rewrite run_bind, run_getitem_snoc, Hdate. cbv beta iota.
  destruct v as [|s|n|dt]; try reflexivity.
  now rewrite run_setitem_snoc.
Qed.

(** [clean_post_data] allocates one dict, a copy of [post], and works
    on it alone. *)
Lemma clean_post_data_run (now : datetime) (post : loc) (h : heap) :
  run (clean_post_data now post) h
  = (h ++ [(clean_steps now (contents h post)).1],
     (clean_steps now (contents h post)).2 ≫= fun _ => Ok (length h)).
Proof.
  rewrite clean_post_data_blocks, run_bind, run_dict_copy.
  pose proof (acts_as_then _ _ _ _ text_block_acts
    (acts_as_then _ _ _ _ (complete_url_acts "post_url")
      (acts_as_then _ _ _ _ (complete_url_acts "author_url") (date_block_acts now))))
    as Hacts.
  specialize (Hacts h (contents h post)). fold (clean_steps now) in Hacts.
  destruct (clean_steps now (contents h post)) as [d' r] eqn:Hsteps.
  simpl fst in *. simpl snd in *.
  transitivity
    (match run (text_block (length h);; complete_url (length h) "post_url";;
                complete_url (length h) "author_url";; date_block now (length h))
               (h ++ [contents h post]) with
     | (h', Ok _) => (h', Ok (length h))
     | (h', Raise e) => (h', Raise e)
     end).
  - rewrite !run_bind.
    destruct (run (text_block (length h)) (h ++ [contents h post])) as [h1 [[]|e1]];
      [|reflexivity].
    rewrite !run_bind.
    destruct (run (complete_url (length h) "post_url") h1) as [h2 [[]|e2]]; [|reflexivity].
    rewrite !run_bind.
    destruct (run (complete_url (length h) "author_url") h2) as [h3 [[]|e3]]; [|reflexivity].
    rewrite !run_bind.
    destruct (run (date_block now (length h)) h3) as [h4 [[]|e4]]; reflexivity.
  - rewrite Hacts. now destruct r as [[]|e].
Qed.

End CleanerProps.

Section CleanerIdempotence.
Context `{IsoParser}.

(** What each block leaves alone. *)
Lemma text_step_frame (d : dict) (k : string) :
  k <> "text" -> k <> "text_snippet" -> (text_step d).1 !! k = d !! k.
Proof.
  intros Hk1 Hk2. unfold text_step.
  destruct (d !! "text") as [text|]; [|reflexivity].
  destruct (normalize_text text) as [t|e]; [|reflexivity].
  destruct (extract_text_snippet _ _) as [s|e]; simpl.
  - rewrite !lookup_insert_ne by congruence. reflexivity.
  - rewrite lookup_insert_ne by congruence. reflexivity.
Qed.

Lemma url_step_frame (field : string) (d : dict) (k : string) :
  k <> field -> (url_step field d).1 !! k = d !! k.
Proof.
  intros Hk. unfold url_step.
  destruct (d !! field) as [url|]; [|reflexivity].
  destruct (truthy url); [|reflexivity].
  destruct url as [|u|n|dt]; try reflexivity.
  destruct (Py.startswith u (str "http")); [reflexivity|]. simpl.
  now rewrite lookup_insert_ne by congruence.
Qed.

Lemma date_step_frame (now : datetime) (d : dict) (k : string) :
  k <> "date_posted" -> (date_step now d).1 !! k = d !! k.
Proof.
  intros Hk. unfold date_step.
  destruct (d !! "date_posted") as [[|s|n|dt]|]; try reflexivity. simpl.
  now rewrite lookup_insert_ne by congruence.
Qed.

(** What each block establishes. *)
Lemma text_step_clean (d d1 : dict) : text_step d = (d1, Ok tt) -> text_clean d1.
Proof.
  unfold text_step, text_clean.
  destruct (d !! "text") as [text|] eqn:Htext.
  - destruct (normalize_text text) as [t|e] eqn:Hnorm; [|discriminate].
    destruct (extract_text_snippet (VStr t) default_max_length) as [s|e] eqn:Hsnip;
      [|discriminate].
    intros [= <-].
    rewrite lookup_insert_ne by discriminate. rewrite lookup_insert_eq.
    exists t, s. repeat split.
    + exact (normalize_text_fixed _ _ Hnorm).
    + exact Hsnip.
    + apply lookup_insert_eq.
  - intros [= <-]. now rewrite Htext.
Qed.

Lemma startswith_base (u : pystr) :
  Py.startswith (base_url_default ++ u) (str "http") = true.
Proof. reflexivity. Qed.

Lemma url_step_clean (field : string) (d d1 : dict) :
  url_step field d = (d1, Ok tt) -> url_clean field d1.
Proof.
  unfold url_step, url_clean.
  destruct (d !! field) as [url|] eqn:Hurl.
  - destruct (truthy url) eqn:Htruthy.
    + destruct url as [|u|n|dt]; try discriminate.
      destruct (Py.startswith u (str "http")) eqn:Hhttp.
      * intros [= <-]. rewrite Hurl. right. now exists u.
      * intros [= <-]. rewrite lookup_insert_eq. right.
        exists (base_url_default ++ u). split; [reflexivity | apply startswith_base].
    + intros [= <-]. rewrite Hurl. now left.
  - intros [= <-]. now rewrite Hurl.
Qed.

Lemma date_step_clean (now : datetime) (d : dict) :
  (date_step now d).2 = Ok tt /\ date_clean (date_step now d).1.
Proof.
  unfold date_step, date_clean.
  destruct (d !! "date_posted") as [[|s|n|dt]|] eqn:Hdate; simpl;
    rewrite ?Hdate, ?lookup_insert_eq; auto.
Qed.

(** The properties depend on their own fields only. *)
Lemma text_clean_agree (d d' : dict) :
  d' !! "text" = d !! "text" -> d' !! "text_snippet" = d !! "text_snippet" ->
  text_clean d -> text_clean d'.
Proof. unfold text_clean. now intros -> ->. Qed.

Lemma url_clean_agree (field : string) (d d' : dict) :
  d' !! field = d !! field -> url_clean field d -> url_clean field d'.
Proof. unfold url_clean. now intros ->. Qed.

(** A cleaned record: what [clean_post_data] returns. *)
Lemma clean_steps_cleaned (now : datetime) (d d1 : dict) :
  clean_steps now d = (d1, Ok tt) -> cleaned_ok d1.
Proof.
  unfold clean_steps, then_step.
  destruct (text_step d) as [da [[]|e]] eqn:Ha; [|discriminate].
  destruct (url_step "post_url" da) as [db [[]|e]] eqn:Hb; [|discriminate].
  destruct (url_step "author_url" db) as [dc [[]|e]] eqn:Hc; [|discriminate].
  intros Hd.
  pose proof (date_step_clean now dc) as [_ Hdate]. rewrite Hd in Hdate. simpl in Hdate.
  assert (Hframe_d : forall k, k <> "date_posted" -> d1 !! k = dc !! k).
  { intros k Hk. pose proof (date_step_frame now dc k Hk) as Hf. now rewrite Hd in Hf. }
  assert (Hframe_c : forall k, k <> "author_url" -> dc !! k = db !! k).
  { intros k Hk. pose proof (url_step_frame "author_url" db k Hk) as Hf. now rewrite Hc in Hf. }
  assert (Hframe_b : forall k, k <> "post_url" -> db !! k = da !! k).
  { intros k Hk. pose proof (url_step_frame "post_url" da k Hk) as Hf. now rewrite Hb in Hf. }
  repeat split.
  - apply (text_clean_agree da); [| | exact (text_step_clean _ _ Ha)].
    + rewrite Hframe_d, Hframe_c, Hframe_b by discriminate. reflexivity.
    + rewrite Hframe_d, Hframe_c, Hframe_b by discriminate. reflexivity.
  - apply (url_clean_agree "post_url" db); [| exact (url_step_clean _ _ _ Hb)].
    rewrite Hframe_d, Hframe_c by discriminate. reflexivity.
  - apply (url_clean_agree "author_url" dc); [| exact (url_step_clean _ _ _ Hc)].
    rewrite Hframe_d by discriminate. reflexivity.
  - exact Hdate.
Qed.

(** On a cleaned record every block is the identity. *)
Lemma text_step_fixed (d : dict) : text_clean d -> text_step d = (d, Ok tt).
Proof.
  unfold text_clean, text_step.
  destruct (d !! "text") as [v|] eqn:Htext; [|reflexivity].
  intros (t & s & -> & Hnorm & Hsnip & Hlookup).
  rewrite Hnorm, Hsnip. rewrite (insert_id d "text" (VStr t) Htext).
  now rewrite (insert_id d "text_snippet" (VStr s) Hlookup).
Qed.

Lemma url_step_fixed (field : string) (d : dict) :
  url_clean field d -> url_step field d = (d, Ok tt).
Proof.
  unfold url_clean, url_step.
  destruct (d !! field) as [v|]; [|reflexivity].
  intros [Hfalsy | (u & -> & Hhttp)].
  - now rewrite Hfalsy.
  - rewrite Hhttp. now destruct (truthy (VStr u)).
Qed.

Lemma date_step_fixed (now : datetime) (d : dict) :
  date_clean d -> date_step now d = (d, Ok tt).
Proof.
  unfold date_clean, date_step.
  now destruct (d !! "date_posted") as [[|s|n|dt]|].
Qed.

Lemma clean_steps_fixed (now : datetime) (d : dict) :
  cleaned_ok d -> clean_steps now d = (d, Ok tt).
Proof.
  intros (Htext & Hpost & Hauthor & Hdate). unfold clean_steps, then_step.
  rewrite (text_step_fixed d Htext), (url_step_fixed _ d Hpost),
    (url_step_fixed _ d Hauthor).
  now apply date_step_fixed.
Qed.

End CleanerIdempotence.

Section CleanerClaims.
Context `{IsoParser}.

(** C10: [clean_post_data] does not write into its argument, nor into
    any other dict that exists when it is called: the heap after the
    call is the heap before it followed by one new dict, the copy, and
    the reference returned is the one of the copy. *)
Theorem clean_post_data_does_not_mutate (now : datetime) (post : loc) (h : heap) :
  take (length h) (run (clean_post_data now post) h).1 = h
  /\ length (run (clean_post_data now post) h).1 = S (length h)
  /\ ((run (clean_post_data now post) h).2 = Ok (length h)
      \/ exists e, (run (clean_post_data now post) h).2 = Raise e).
Proof.
  rewrite clean_post_data_run. simpl fst. simpl snd. split; [|split].
  - apply take_app_length.
  - rewrite length_app. simpl. lia.
  - destruct (clean_steps now (contents h post)).2 as [[]|e]; simpl; eauto.
Qed.

(** The contents of every dict that exists before the call are the same
    after it. *)
Corollary clean_post_data_frame (now : datetime) (post l : loc) (h : heap) :
  (l < length h)%nat ->
  contents (run (clean_post_data now post) h).1 l = contents h l.
Proof.
  intros Hl. rewrite clean_post_data_run. simpl fst. now apply contents_old.
Qed.

(** C6: cleaning a cleaned record gives a record with the same
    contents, whatever the clock reads at the two calls. *)
Theorem clean_post_data_idempotent (now1 now2 : datetime) (post c1 : loc) (h h1 : heap) :
  run (clean_post_data now1 post) h = (h1, Ok c1) ->
  exists h2 c2,
    run (clean_post_data now2 c1) h1 = (h2, Ok c2)
    /\ contents h2 c2 = contents h1 c1.
Proof.
  intros Hrun. rewrite clean_post_data_run in Hrun.
  destruct (clean_steps now1 (contents h post)) as [d1 [[]|e]] eqn:Hfirst;
    simpl in Hrun; [|discriminate].
  injection Hrun as <- <-.
  pose proof (clean_steps_fixed now2 d1 (clean_steps_cleaned now1 _ _ Hfirst)) as Hsecond.
  rewrite clean_post_data_run, contents_snoc, Hsecond. simpl.
  eexists _, _. split; [reflexivity|].
  now rewrite contents_snoc.
Qed.

End CleanerClaims.

Lemma clean_post_data_idempotent_witness :
  exists h2 c2,
    run (clean_post_data (H := iso_basic) now_march_15 1%nat)
        (run (clean_post_data (H := iso_basic) now_march_1 0%nat) [post_raw]).1
    = (h2, Ok c2)
    /\ contents h2 c2
       = contents (run (clean_post_data (H := iso_basic) now_march_1 0%nat) [post_raw]).1 1%nat.
Proof.
  apply (clean_post_data_idempotent (H := iso_basic) now_march_1 now_march_15 0%nat 1%nat [post_raw]).
  vm_compute. reflexivity.
Defined.

(** The cleaned copy of [post_raw], and [post_raw] itself after the
    call. *)
Example clean_post_raw :
  let h1 := (run (clean_post_data (H := iso_basic) now_march_1 0%nat) [post_raw]).1 in
  contents h1 1%nat
  = <[ "post_url" := VStr (str "https://www.linkedin.com/posts/1") ]>
    (<[ "author_url" := VStr (str "https://www.linkedin.com/in/ann") ]>
    (<[ "author_name" := VStr (str "Ann") ]>
    (<[ "text" := VStr (str "We are hiring engineers") ]>
    (<[ "text_snippet" := VStr (str "We are hiring engineers") ]>
    (<[ "date_posted" := VDate (Datetime 2024 2 20 3 0 0 0 None) ]>
    (<[ "likes" := VInt 3 ]> ∅))))))
  /\ contents h1 0%nat = post_raw.
Proof. split; vm_compute; reflexivity. Qed.

(** ** The stable sort *)

Section Sort.
Context {A : Type}.

Lemma insert_desc_perm (x : Z * A) (l : list (Z * A)) :
  Permutation (insert_desc x l) (x :: l).
Proof.
  induction l as [|y l IH]; simpl; [reflexivity|].
  destruct (fst x <? fst y); [|reflexivity].
  rewrite IH. apply perm_swap.
Qed.

Lemma sort_reverse_perm (l : list (Z * A)) : Permutation (sort_reverse l) l.
Proof.
  induction l as [|x l IH]; simpl; [reflexivity|].
  rewrite insert_desc_perm. now rewrite IH.
Qed.

Lemma insert_desc_sorted (x : Z * A) (l : list (Z * A)) :
  StronglySorted key_ge l -> StronglySorted key_ge (insert_desc x l).
Proof.
  induction 1 as [|y l Hsorted IH Hall]; simpl.
  - repeat constructor.
  - destruct (Z.ltb_spec (fst x) (fst y)) as [Hlt|Hge].
    + constructor; [exact IH|].
      apply (Permutation_Forall (Permutation_sym (insert_desc_perm x l))).
      constructor; [unfold key_ge; lia | exact Hall].
    + constructor; [now constructor|].
      constructor; [exact Hge|].
      revert Hall. apply List.Forall_impl. unfold key_ge. intros z Hz. lia.
Qed.

Lemma sort_reverse_sorted (l : list (Z * A)) : StronglySorted key_ge (sort_reverse l).
Proof.
  induction l as [|x l IH]; simpl; [constructor | now apply insert_desc_sorted].
Qed.

(** An element goes in front of the elements with its key. *)
Lemma insert_desc_stable (s : Z) (x : Z * A) (l : list (Z * A)) :
  List.filter (fun p => fst p =? s) (insert_desc x l)
  = List.filter (fun p => fst p =? s) (x :: l).
Proof.
  induction l as [|y l IH]; [reflexivity|].
  simpl insert_desc. destruct (Z.ltb_spec (fst x) (fst y)) as [Hlt|Hge]; [|reflexivity].
  simpl List.filter in *. rewrite IH.
  destruct (Z.eqb_spec (fst x) s), (Z.eqb_spec (fst y) s); try reflexivity. lia.
Qed.

Lemma sort_reverse_stable (s : Z) (l : list (Z * A)) :
  List.filter (fun p => fst p =? s) (sort_reverse l)
  = List.filter (fun p => fst p =? s) l.
Proof.
  induction l as [|x l IH]; [reflexivity|].
  simpl sort_reverse. rewrite insert_desc_stable. simpl. now rewrite IH.
Qed.

End Sort.

(** ** Scoring and ranking *)

Section Ranking.

Lemma contents_alter_ne (f : dict -> dict) (h : heap) (l l' : loc) :
  l <> l' -> contents (alter f l h) l' = contents h l'.
Proof. intros Hne. unfold contents. now rewrite list_lookup_alter_ne. Qed.

Lemma contents_alter_eq (f : dict -> dict) (h : heap) (l : loc) :
  (l < length h)%nat -> contents (alter f l h) l = f (contents h l).
Proof.
  intros Hl. unfold contents. rewrite list_lookup_alter_eq.
  destruct (lookup_lt_is_Some_2 h l Hl) as [d Hd]. now rewrite Hd.
Qed.

Lemma contents_alter_out (f : dict -> dict) (h : heap) (l l' : loc) :
  (length h <= l)%nat -> contents (alter f l h) l' = contents h l'.
Proof.
  intros Hl. unfold contents.
  destruct (decide (l = l')) as [<-|Hne]; [|now rewrite list_lookup_alter_ne].
  rewrite list_lookup_alter_eq. now rewrite (lookup_ge_None_2 h l Hl).
Qed.

Lemma run_get_or (l : loc) (k : string) (dflt : value) (h : heap) :
  run (get_or l k dflt) h = (h, Ok (dict_get_or (contents h l) k dflt)).
Proof. reflexivity. Qed.

Lemma run_lift {A : Type} (r : res A) (h : heap) : run (lift r) h = (h, r).
Proof. reflexivity. Qed.

Lemma run_setitem (l : loc) (k : string) (v : value) (h : heap) :
  run (setitem l k v) h = (alter (insert k v) l h, Ok tt).
Proof. reflexivity. Qed.

(** One iteration of the scoring loop. *)
Lemma run_score_loop_cons (post : loc) (rest : list loc) (keywords : list pystr) (h : heap) :
  run (score_loop (post :: rest) keywords) h
  = match calculate_relevance_score
            (dict_get_or (contents h post) "text" (VStr [])) keywords with
    | Ok score => run (score_loop rest keywords) (alter (insert "score" (VInt score)) post h)
    | Raise e => (h, Raise e)
    end.
Proof.
  cbn [score_loop]. rewrite run_bind, run_get_or. cbv beta iota.
  rewrite run_bind, run_lift.
  destruct (calculate_relevance_score _ _); [|reflexivity].
  cbv beta iota. now rewrite run_bind, run_setitem.
Qed.

Lemma int_scored_set (h : heap) (l : loc) (score : Z) :
  int_scored (alter (insert "score" (VInt score)) l h) l.
Proof.
  unfold int_scored, dict_get_or.
  destruct (Nat.lt_ge_cases l (length h)) as [Hin|Hout].
  - rewrite contents_alter_eq by exact Hin. rewrite lookup_insert_eq. now exists score.
  - unfold contents. rewrite list_lookup_alter_eq, (lookup_ge_None_2 h l Hout).
    simpl. now exists 0.
Qed.

Lemma int_scored_kept (h : heap) (l l' : loc) (score : Z) :
  int_scored h l' -> int_scored (alter (insert "score" (VInt score)) l h) l'.
Proof.
  intros Hl'. destruct (decide (l = l')) as [<-|Hne]; [apply int_scored_set|].
  unfold int_scored. now rewrite contents_alter_ne.
Qed.

(** The loop only writes the field ["score"], and only into the posts
    of its list. *)
Lemma score_loop_frame (posts : list loc) (keywords : list pystr) (h h' : heap) :
  run (score_loop posts keywords) h = (h', Ok tt) ->
  length h' = length h
  /\ (forall l k, k <> "score" -> contents h' l !! k = contents h l !! k)
  /\ (forall l, l ∉ posts -> contents h' l = contents h l)
  /\ (forall l, int_scored h l -> int_scored h' l)
  /\ Forall (int_scored h') posts.
Proof.
  revert h. induction posts as [|post rest IH]; intros h.
  - intros [= <-]. repeat split; auto.
  - rewrite run_score_loop_cons.
    destruct (calculate_relevance_score _ _) as [score|e]; [|discriminate].
    intros Hrest. destruct (IH _ Hrest) as (Hlen & Hother & Hout & Hkept & Hall).
    split; [|split; [|split; [|split]]].
    + now rewrite Hlen, length_alter.
    + intros l k Hk. rewrite Hother by exact Hk.
      destruct (decide (post = l)) as [<-|Hne]; [|now rewrite contents_alter_ne].
      destruct (Nat.lt_ge_cases post (length h)) as [Hin|Hge].
      * rewrite contents_alter_eq by exact Hin. now rewrite lookup_insert_ne.
      * now rewrite contents_alter_out.
    + intros l Hl. apply not_elem_of_cons in Hl as [Hne Hl].
      rewrite Hout by exact Hl. now rewrite contents_alter_ne.
    + intros l Hl. now apply Hkept, int_scored_kept.
    + constructor; [apply Hkept, int_scored_set | exact Hall].
Qed.

(** Every post of the list gets the relevance score of its text. *)
Lemma score_loop_scores (posts : list loc) (keywords : list pystr) (h h' : heap) :
  run (score_loop posts keywords) h = (h', Ok tt) ->
  forall l, l ∈ posts -> (l < length h)%nat ->
    exists score,
      calculate_relevance_score (dict_get_or (contents h l) "text" (VStr [])) keywords
      = Ok score
      /\ contents h' l !! "score" = Some (VInt score).
Proof.
  revert h. induction posts as [|post rest IH]; intros h Hrun l Hl Hlive.
  - inversion Hl.
  - rewrite run_score_loop_cons in Hrun.
    destruct (calculate_relevance_score _ _) as [score|e] eqn:Hscore; [|discriminate].
    set (h1 := alter (insert "score" (VInt score)) post h) in *.
    assert (Htext : forall l', dict_get_or (contents h1 l') "text" (VStr [])
                               = dict_get_or (contents h l') "text" (VStr [])).
    { intros l'. unfold dict_get_or, h1.
      destruct (decide (post = l')) as [<-|Hne]; [|now rewrite contents_alter_ne].
      destruct (Nat.lt_ge_cases post (length h)) as [Hin|Hge].
      - rewrite contents_alter_eq by exact Hin. now rewrite lookup_insert_ne.
      - now rewrite contents_alter_out. }
    destruct (decide (l ∈ rest)) as [Hrest|Hfirst].
    + destruct (IH h1 Hrun l Hrest) as (s & Hs & Hstored).
      { unfold h1. now rewrite length_alter. }
      exists s. rewrite <- Htext. now split.
    + apply elem_of_cons in Hl as [->|Hl]; [|contradiction].
      exists score. split; [exact Hscore|].
      destruct (score_loop_frame _ _ _ _ Hrun) as (_ & _ & Hout & _).
      rewrite (Hout post Hfirst). unfold h1.
      rewrite contents_alter_eq by exact Hlive. apply lookup_insert_eq.
Qed.

Lemma score_of_int (h : heap) (l : loc) :
  int_scored h l -> dict_get_or (contents h l) "score" (VInt 0) = VInt (score_of h l).
Proof. intros [n Hn]. unfold score_of. now rewrite Hn. Qed.

(** The keys the sort works on. *)
Lemma run_keyed (posts : list loc) (h : heap) :
  Forall (int_scored h) posts ->
  run (keyed posts) h = (h, Ok (map (fun l => (score_of h l, l)) posts)).
Proof.
  induction 1 as [|x rest Hx _ IH]; [reflexivity|].
  cbn [keyed]. rewrite run_bind.
  assert (Hkey : run (score_key x) h = (h, Ok (score_of h x))).
  { unfold score_key. rewrite run_bind, run_get_or. cbv beta iota.
    now rewrite (score_of_int h x Hx). }
  rewrite Hkey. cbv beta iota. rewrite run_bind, IH. reflexivity.
Qed.

End Ranking.

Section RankingClaims.

Lemma decorated_map (f : loc -> Z) (posts : list loc) :
  Forall (decorated f) (map (fun l => (f l, l)) posts)
  /\ map snd (map (fun l => (f l, l)) posts) = posts.
Proof.
  induction posts as [|l posts [IHall IHsnd]]; simpl; [now split|].
  split; [constructor; [reflexivity | exact IHall] | now rewrite IHsnd].
Qed.

Lemma decorated_sorted (f : loc -> Z) (L : list (Z * loc)) :
  Forall (decorated f) L ->
  StronglySorted key_ge L ->
  StronglySorted (fun a b => f b <= f a) (map snd L).
Proof.
  intros Hdec Hsorted. induction Hsorted as [|p L Hsorted IH Hall]; simpl.
  - constructor.
  - apply Forall_cons_1 in Hdec as [Hp Hdec].
    constructor; [now apply IH|].
    apply List.Forall_map. apply List.Forall_forall. intros q Hq.
    rewrite List.Forall_forall in Hall, Hdec.
    specialize (Hall q Hq). specialize (Hdec q Hq).
    unfold key_ge, decorated in *. lia.
Qed.

Lemma decorated_filter (f : loc -> Z) (s : Z) (L : list (Z * loc)) :
  Forall (decorated f) L ->
  List.filter (fun l => f l =? s) (map snd L)
  = map snd (List.filter (fun p => fst p =? s) L).
Proof.
  induction 1 as [|p L Hp _ IH]; simpl; [reflexivity|].
  unfold decorated in Hp. rewrite <- Hp, IH.
  now destruct (fst p =? s).
Qed.

(** C7: the posts come back in descending order of their score, and
    posts with the same score in the order they had in the input. *)
Theorem score_and_rank_posts_sorted_stable
    (posts : list loc) (keywords : list pystr) (h h' : heap) (ranked : list loc) :
  run (score_and_rank_posts posts keywords) h = (h', Ok ranked) ->
  Permutation ranked posts
  /\ StronglySorted (score_ge h') ranked
  /\ forall s : Z,
       List.filter (fun l => score_of h' l =? s) ranked
       = List.filter (fun l => score_of h' l =? s) posts.
Proof.
  unfold score_and_rank_posts. rewrite run_bind.
  destruct (run (score_loop posts keywords) h) as [h1 [[]|e]] eqn:Hloop; [|discriminate].
  destruct (score_loop_frame _ _ _ _ Hloop) as (_ & _ & _ & _ & Hint).
  rewrite run_bind, (run_keyed posts h1 Hint). cbv beta iota. rewrite run_ret.
  intros [= <- <-].
  destruct (decorated_map (score_of h1) posts) as [Hdec Hsnd].
  set (D := map (fun l => (score_of h1 l, l)) posts) in *.
  assert (Hdec' : Forall (decorated (score_of h1)) (sort_reverse D)).
  { exact (Permutation_Forall (Permutation_sym (sort_reverse_perm D)) Hdec). }
  split; [|split].
  - transitivity (map snd D); [apply Permutation_map, sort_reverse_perm|].
    now rewrite Hsnd.
  - apply (decorated_sorted (score_of h1)); [exact Hdec' | apply sort_reverse_sorted].
  - intros s. rewrite (decorated_filter _ s _ Hdec'), sort_reverse_stable.
    rewrite <- (decorated_filter _ s _ Hdec). now rewrite Hsnd.
Qed.

(** Scores 3, 1, 3, 2 in input order: the two posts of score 3 come
    first, in their input order, then the post of score 2, then 1. *)
Lemma score_and_rank_posts_sorted_stable_witness :
  let h' := (run (score_and_rank_posts [0; 1; 2; 3]%nat [str "hiring"]) ranking_heap).1 in
  Permutation [0; 2; 3; 1]%nat [0; 1; 2; 3]%nat
  /\ StronglySorted (score_ge h') [0; 2; 3; 1]%nat
  /\ forall s : Z,
       List.filter (fun l => score_of h' l =? s) [0; 2; 3; 1]%nat
       = List.filter (fun l => score_of h' l =? s) [0; 1; 2; 3]%nat.
Proof.
  apply (score_and_rank_posts_sorted_stable [0; 1; 2; 3]%nat [str "hiring"] ranking_heap).
  vm_compute. reflexivity.
Defined.

Example rank_3_1_3_2 :
  (run (score_and_rank_posts [0; 1; 2; 3]%nat [str "hiring"]) ranking_heap).2
  = Ok [0; 2; 3; 1]%nat
  /\ map (score_of (run (score_and_rank_posts [0; 1; 2; 3]%nat [str "hiring"]) ranking_heap).1)
         [0; 1; 2; 3]%nat
     = [3; 1; 3; 2].
Proof. split; vm_compute; reflexivity. Qed.

End RankingClaims.

(** ** The adapters *)

Section AdapterClaims.
Context `{IsoParser}.


End AdapterClaims.

Section ExtractionProps.
Context `{IsoParser}.












Lemma run_new_dict (d : dict) (h : heap) :
  run (new_dict d) h = (h ++ [d], Ok (length h)).
Proof. reflexivity. Qed.




End ExtractionProps.

(** ** More on the relevance score *)

Section ScoreProps.

Lemma lower_char_lower_char (c : ascii) :
  Py.lower_char (Py.lower_char c) = Py.lower_char c.
Proof. destruct c as [[] [] [] [] [] [] [] []]; reflexivity. Qed.

Lemma lower_lower (s : pystr) : Py.lower (Py.lower s) = Py.lower s.
Proof.
  unfold Py.lower. rewrite map_map. apply map_ext. intros c. apply lower_char_lower_char.
Qed.

Lemma count_from_nonneg (kw : pystr) (prev : option ascii) (s : pystr) (skip : nat) :
  0 <= Re.count_from kw prev s skip.
Proof.
  revert prev skip. induction s as [|c s IH]; intros prev skip; simpl.
  - destruct skip; [destruct (Re.match_word_at kw prev [])|]; lia.
  - destruct skip as [|k]; [|apply IH].
    destruct (Re.match_word_at kw prev (c :: s)).
    + pose proof (IH (Some c) (Nat.pred (length kw))). lia.
    + apply IH.
Qed.

Lemma total_matches_nonneg (text_lower : pystr) (keywords : list pystr) :
  0 <= total_matches text_lower keywords.
Proof.
  unfold total_matches. induction keywords as [|k ks IH]; [simpl; lia|].
  rewrite map_cons. cbn [fold_right].
  pose proof (count_from_nonneg (Py.lower k) None text_lower 0) as Hk.
  unfold Re.count_word in *. lia.
Qed.

Lemma total_matches_app (text_lower : pystr) (K1 K2 : list pystr) :
  total_matches text_lower (K1 ++ K2)
  = total_matches text_lower K1 + total_matches text_lower K2.
Proof.
  unfold total_matches. induction K1 as [|k ks IH]; [reflexivity|].
  rewrite <- app_comm_cons, !map_cons. cbn [fold_right]. rewrite IH. lia.
Qed.

(** The score of a non-empty text for a non-empty keyword list. *)
Lemma score_of_str (c : ascii) (T : pystr) (k : pystr) (K : list pystr) :
  calculate_relevance_score (VStr (c :: T)) (k :: K)
  = Ok (total_matches (Py.lower (c :: T)) (k :: K)).
Proof.
  unfold calculate_relevance_score. cbn [truthy Py.nonempty negb orb].
  f_equal. now rewrite score_loop_sum.
Qed.

(** The score is never negative. *)
Theorem calculate_relevance_score_nonneg (T : value) (K : list pystr) (score : Z) :
  calculate_relevance_score T K = Ok score -> 0 <= score.
Proof.
  unfold calculate_relevance_score.
  destruct (negb (truthy T) || negb _); [intros [= <-]; lia|].
  destruct T as [|text| |]; try discriminate.
  intros [= <-]. rewrite score_loop_sum.
  pose proof (total_matches_nonneg (Py.lower text) K). lia.
Qed.

Lemma calculate_relevance_score_nonneg_witness :
  calculate_relevance_score (VStr (str "We are hiring engineers; hiring now"))
    [str "hiring"; str "engineers"; str "now"] = Ok 4
  /\ 0 <= 4.
Proof.
  split; [exact score_hiring|].
  exact (calculate_relevance_score_nonneg
           (VStr (str "We are hiring engineers; hiring now"))
           [str "hiring"; str "engineers"; str "now"] 4 score_hiring).
Defined.

(** The score of two keyword lists put together is the sum of their
    scores: every keyword counts on its own, and a repeated keyword
    counts again. *)
Theorem calculate_relevance_score_app (T : value) (K1 K2 : list pystr) :
  calculate_relevance_score T (K1 ++ K2)
  = (s1 ← calculate_relevance_score T K1;
     s2 ← calculate_relevance_score T K2;
     Ok (s1 + s2)).
Proof.
  destruct T as [|text|n|d].
  - reflexivity.
  - destruct text as [|c text]; [reflexivity|].
    destruct K1 as [|k1 K1]; [|destruct K2 as [|k2 K2]].
    + simpl app. rewrite score_no_keywords, res_bind_Ok.
      destruct (calculate_relevance_score (VStr (c :: text)) K2) as [s|e]; [|reflexivity].
      now rewrite res_bind_Ok.
    + rewrite app_nil_r, score_no_keywords.
      destruct (calculate_relevance_score (VStr (c :: text)) (k1 :: K1)) as [s|e];
        [|reflexivity].
      rewrite !res_bind_Ok. f_equal. lia.
    + change ((k1 :: K1) ++ k2 :: K2) with (k1 :: (K1 ++ k2 :: K2)).
      rewrite !score_of_str, !res_bind_Ok. f_equal.
      exact (total_matches_app _ (k1 :: K1) (k2 :: K2)).
  - unfold calculate_relevance_score. cbn [truthy].
    destruct (n =? 0); cbn [negb orb]; [reflexivity|].
    destruct K1 as [|k1 K1]; [|reflexivity].
    cbn [app negb orb]. rewrite res_bind_Ok.
    destruct K2; reflexivity.
  - unfold calculate_relevance_score. cbn [truthy negb orb].
    destruct K1 as [|k1 K1]; [|reflexivity].
    cbn [app negb orb]. rewrite res_bind_Ok.
    destruct K2; reflexivity.
Qed.

(** Matching ignores case: lower-casing the text and the keywords
    beforehand does not change the score. *)
Theorem calculate_relevance_score_case_insensitive (T : pystr) (K : list pystr) :
  calculate_relevance_score (VStr (Py.lower T)) (map Py.lower K)
  = calculate_relevance_score (VStr T) K.
Proof.
  destruct T as [|c T]; [reflexivity|].
  destruct K as [|k K]; [reflexivity|].
  change (Py.lower (c :: T)) with (Py.lower_char c :: Py.lower T).
  change (map Py.lower (k :: K)) with (Py.lower k :: map Py.lower K).
  rewrite !score_of_str. f_equal.
  change (Py.lower_char c :: Py.lower T) with (Py.lower (c :: T)).
  rewrite lower_lower. unfold total_matches.
  change (Py.lower k :: map Py.lower K) with (map Py.lower (k :: K)).
  rewrite map_map. f_equal. apply map_ext. intros kw. now rewrite lower_lower.
Qed.

End ScoreProps.

(** ** More on deduplication *)

Section DedupProps.

Lemma kept_sublist (seen : list value) (keyed : list (value * dict)) :
  kept seen keyed `sublist_of` keyed.
Proof.
  revert seen. induction keyed as [|[k post] keyed IH]; intros seen; simpl.
  - constructor.
  - destruct (truthy k && negb (bool_decide (k ∈ seen))).
    + apply sublist_skip, IH.
    + destruct (negb (truthy k)); [apply sublist_skip, IH | apply sublist_cons, IH].
Qed.

(** The keys of the records that the loop keeps are new and pairwise
    different. *)
Lemma kept_keys_new (seen : list value) (keyed : list (value * dict)) (k : value) :
  k ∈ map fst (kept seen keyed) -> truthy k = true -> k ∉ seen.
Proof.
  revert seen. induction keyed as [|[k' post] keyed IH]; intros seen; simpl.
  - intros Hin. inversion Hin.
  - destruct (truthy k') eqn:Htruthy; simpl.
    + destruct (decide (k' ∈ seen)) as [Hseen|Hnew].
      * rewrite (bool_decide_eq_true_2 _ Hseen). simpl. apply IH.
      * rewrite (bool_decide_eq_false_2 _ Hnew). simpl.
        intros Hin Hk. apply elem_of_cons in Hin as [->|Hin]; [exact Hnew|].
        specialize (IH (k' :: seen) Hin Hk).
        intros Hno. apply IH. now apply elem_of_cons; right.
    + intros Hin Hk. apply elem_of_cons in Hin as [->|Hin]; [congruence|].
      now apply IH.
Qed.

Lemma kept_keys_distinct (seen : list value) (keyed : list (value * dict))
    (i j : nat) (k : value) :
  map fst (kept seen keyed) !! i = Some k ->
  map fst (kept seen keyed) !! j = Some k ->
  truthy k = true -> i = j.
Proof.
  revert seen i j. induction keyed as [|[k' post] keyed IH]; intros seen i j; simpl.
  - now rewrite lookup_nil.
  - assert (Hhead : forall seen' n,
              map fst (kept (k' :: seen') keyed) !! n = Some k ->
              truthy k = true -> k <> k').
    { intros seen' n Hn Hk ->.
      apply (kept_keys_new (k' :: seen') keyed k'); [|exact Hk|now apply elem_of_cons; left].
      apply list_elem_of_lookup. eauto. }
    destruct (truthy k') eqn:Htruthy; simpl.
    + destruct (bool_decide (k' ∈ seen)); simpl; [apply IH|].
      destruct i as [|i], j as [|j]; simpl.
      * reflexivity.
      * intros [= ->] Hj Hk. now destruct (Hhead seen j Hj Hk).
      * intros Hi [= ->] Hk. now destruct (Hhead seen i Hi Hk).
      * intros Hi Hj Hk. f_equal. exact (IH _ _ _ Hi Hj Hk).
    + destruct i as [|i], j as [|j]; simpl.
      * reflexivity.
      * intros [= ->]. congruence.
      * intros _ [= ->]. congruence.
      * intros Hi Hj Hk. f_equal. exact (IH _ _ _ Hi Hj Hk).
Qed.

(** [deduplicate_posts] returns records of its input, in their order,
    and never two records with the same key: if the records at two
    positions of the result have the same key, the positions are the
    same or the key is empty. *)
Theorem deduplicate_posts_distinct (posts out : list dict) (key : string) :
  deduplicate_posts posts key = Ok out ->
  out `sublist_of` posts
  /\ forall i j p q k,
       out !! i = Some p -> out !! j = Some q ->
       post_key_of key p = Ok k -> post_key_of key q = Ok k ->
       truthy k = true -> i = j.
Proof.
  unfold deduplicate_posts. rewrite dedup_loop_kept.
  destruct (with_keys key posts) as [keyed|e] eqn:Hkeys; [|discriminate].
  rewrite res_bind_Ok. intros [= <-].
  apply with_keys_right in Hkeys as [Hright Hsnd].
  split.
  - rewrite <- Hsnd. apply (fmap_sublist snd), kept_sublist.
  - intros i j p q k Hi Hj Hp Hq Hk.
    pose proof (kept_right key [] keyed Hright) as Hkept.
    rewrite List.Forall_forall in Hkept.
    assert (Hkey : forall n r, map snd (kept [] keyed) !! n = Some r ->
                     post_key_of key r = Ok k ->
                     map fst (kept [] keyed) !! n = Some k).
    { intros n r Hn Hr.
      change (map snd (kept [] keyed)) with (snd <$> kept [] keyed) in Hn.
      change (map fst (kept [] keyed)) with (fst <$> kept [] keyed).
      rewrite list_lookup_fmap in Hn. rewrite list_lookup_fmap.
      destruct (kept [] keyed !! n) as [[k0 p0]|] eqn:Hlook; simpl in Hn; [|discriminate].
      assert (p0 = r) as -> by congruence. simpl.
      assert (Hin : In (k0, r) (kept [] keyed)).
      { apply list_elem_of_In, list_elem_of_lookup. eauto. }
      specialize (Hkept _ Hin). unfold keyed_right in Hkept. simpl in *.
      congruence. }
    exact (kept_keys_distinct [] keyed i j k (Hkey _ _ Hi Hp) (Hkey _ _ Hj Hq) Hk).
Qed.

Lemma deduplicate_posts_distinct_witness :
  [post_hiring_1; post_with_url; post_keyless; post_keyless]
    `sublist_of` [post_hiring_1; post_with_url; post_keyless; post_hiring_2; post_keyless]
  /\ forall i j p q k,
       [post_hiring_1; post_with_url; post_keyless; post_keyless] !! i = Some p ->
       [post_hiring_1; post_with_url; post_keyless; post_keyless] !! j = Some q ->
       post_key_of "post_url" p = Ok k -> post_key_of "post_url" q = Ok k ->
       truthy k = true -> i = j.
Proof. exact (deduplicate_posts_distinct _ _ _ dedup_same_text). Defined.

End DedupProps.

(** ** Numbers read from a text *)

Section Numbers.

Lemma span_fst_all (p : ascii -> bool) (s : pystr) :
  forallb p (fst (Re.span p s)) = true.
Proof.
  induction s as [|c s IH]; simpl; [reflexivity|].
  destruct (p c) eqn:Hc; [|reflexivity].
  destruct (Re.span p s) as [a b]. simpl in *. now rewrite Hc.
Qed.

Lemma match_number_unit_digits (unit s g : pystr) :
  Re.match_number_unit unit s = Some g -> forallb Py.isdigit g = true.
Proof.
  unfold Re.match_number_unit.
  pose proof (span_fst_all Py.isdigit s) as Hall.
  destruct (Re.span Py.isdigit s) as [digits rest]. simpl in Hall.
  destruct (Py.nonempty digits && _); [|discriminate].
  now intros [= <-].
Qed.

Lemma search_number_unit_digits (unit s g : pystr) :
  Re.search_number_unit unit s = Some g -> forallb Py.isdigit g = true.
Proof.
  induction s as [|c s IH]; cbn [Re.search_number_unit].
  - destruct (Re.match_number_unit unit []) as [g'|] eqn:Hm; [|discriminate].
    intros [= <-]. exact (match_number_unit_digits _ _ _ Hm).
  - destruct (Re.match_number_unit unit (c :: s)) as [g'|] eqn:Hm; [|exact IH].
    intros [= <-]. exact (match_number_unit_digits _ _ _ Hm).
Qed.

Lemma first_number_digits (s g : pystr) :
  Re.first_number s = Some g -> forallb Py.isdigit g = true.
Proof.
  induction s as [|c s IH]; [discriminate|].
  cbn [Re.first_number]. destruct (Py.isdigit c); [|exact IH].
  intros Hg. assert (g = (Re.span Py.isdigit (c :: s)).1) as -> by congruence.
  apply span_fst_all.
Qed.

Lemma isdigit_value (c : ascii) :
  Py.isdigit c = true -> 0 <= Z.of_N (Py.ord c) - 48 <= 9.
Proof.
  unfold Py.isdigit, Py.between. rewrite andb_true_iff, !N.leb_le. lia.
Qed.

Lemma int_of_digits_nonneg (s : pystr) :
  forallb Py.isdigit s = true -> 0 <= int_of_digits s.
Proof.
  unfold int_of_digits.
  assert (Hfold : forall acc, 0 <= acc -> forallb Py.isdigit s = true ->
            0 <= fold_left (fun acc c => 10 * acc + (Z.of_N (Py.ord c) - 48)) s acc).
  { induction s as [|c s IH]; intros acc Hacc; simpl; [trivial|].
    rewrite andb_true_iff. intros [Hc Hs].
    apply IH; [|exact Hs]. pose proof (isdigit_value c Hc). lia. }
  apply Hfold. lia.
Qed.

(** [extract_engagement] and the counters of [_extract_single_post]
    never return a negative number, whatever the text found. *)
Theorem extract_engagement_nonneg (found : option pystr) :
  0 <= extract_engagement found /\ 0 <= counter found.
Proof.
  unfold extract_engagement, counter.
  destruct found as [t|]; [|lia].
  destruct (Py.nonempty t); [|lia]. split.
  - destruct (Re.first_number t) as [n|] eqn:Hn; [|lia].
    exact (int_of_digits_nonneg n (first_number_digits _ _ Hn)).
  - destruct (Re.first_number (Py.replace_char ","%char [] t)) as [n|] eqn:Hn; [|lia].
    exact (int_of_digits_nonneg n (first_number_digits _ _ Hn)).
Qed.

End Numbers.

(** ** More on relative dates *)

Section RelativeDateBounds.

Lemma not_after_refl (now : datetime) : not_after_by_fields now now.
Proof. unfold not_after_by_fields. repeat split; lia. Qed.

Lemma make_fields (y m d h mi s us : Z) (tz : option Z) (r : datetime) :
  DT.make y m d h mi s us tz = Ok r -> r = Datetime y m d h mi s us tz.
Proof.
  unfold DT.make. destruct (_ && _); [|discriminate]. now intros [= <-].
Qed.

Lemma first_pattern_not_after (now : datetime)
    (patterns : list (pystr * (Z -> res datetime))) (date_text : pystr) :
  Forall (fun p => forall x d, 0 <= x -> p.2 x = Ok d -> not_after_by_fields now d)
    patterns ->
  not_after_by_fields now (first_pattern patterns date_text now).
Proof.
  induction 1 as [|[unit func] rest Hfunc _ IH]; cbn [first_pattern].
  - apply not_after_refl.
  - destruct (Re.search_number_unit unit date_text) as [g|] eqn:Hg; [|exact IH].
    destruct (func (int_of_digits g)) as [d|e] eqn:Hd; [|exact IH].
    apply (Hfunc (int_of_digits g)); [|exact Hd].
    apply int_of_digits_nonneg. exact (search_number_unit_digits _ _ _ Hg).
Qed.

(** [parse_relative_date] never returns a time after [now], and never
    one of another year: the date it returns has the fields of [now],
    except that one of month, day and hour may be smaller. *)
Theorem parse_relative_date_not_after (now d : datetime) (date_text : pystr) :
  parse_relative_date now date_text = Some d -> not_after_by_fields now d.
Proof.
  unfold parse_relative_date.
  destruct (negb (Py.nonempty date_text)); [discriminate|].
  cbv zeta.
  match goal with
  | |- Some (first_pattern ?ps ?t now) = _ -> _ =>
      pose proof (first_pattern_not_after now ps t) as Hfirst;
      generalize dependent (first_pattern ps t now)
  end.
  intros r Hfirst [= <-]. apply Hfirst.
  repeat apply List.Forall_cons; try apply List.Forall_nil;
    cbn [snd]; intros x d Hx Hd;
    apply make_fields in Hd; subst d; unfold not_after_by_fields; cbn;
    repeat split; lia.
Qed.

Lemma parse_relative_date_not_after_witness :
  parse_relative_date now_march_15 (str "3 hours ago")
  = Some (Datetime 2024 3 15 7 30 0 0 None)
  /\ not_after_by_fields now_march_15 (Datetime 2024 3 15 7 30 0 0 None).
Proof.
  assert (Hrun : parse_relative_date now_march_15 (str "3 hours ago")
                 = Some (Datetime 2024 3 15 7 30 0 0 None))
    by (vm_compute; reflexivity).
  split; [exact Hrun|].
  exact (parse_relative_date_not_after now_march_15 _ (str "3 hours ago") Hrun).
Defined.

End RelativeDateBounds.

(** ** The date filter on a week of posts *)


(** ** The shape of a normalized text *)

Section NormalizeShape.

Lemma rstrip_fixed_tail (c : ascii) (s : pystr) :
  Py.rstrip (c :: s) = c :: s ->
  (s = [] /\ Py.isspace c = false) \/ (s <> [] /\ Py.rstrip s = s).
Proof.
  cbn [Py.rstrip]. destruct (Py.rstrip s) as [|x r] eqn:Hr.
  - destruct (Py.isspace c); [discriminate|]. intros [= <-]. now left.
  - intros [= <-]. right. split; [discriminate | reflexivity].
Qed.

Lemma single_spaced_inner (b : bool) (s : pystr) (i : nat) (c : ascii) :
  single_spaced b s = true -> Py.rstrip s = s ->
  s !! i = Some c -> Py.isspace c = true ->
  c = " "%char /\ exists c', s !! S i = Some c' /\ Py.isspace c' = false.
Proof.
  revert b i. induction s as [|x s IH]; intros b i Hs Hr Hi Hc; [discriminate|].
  apply rstrip_fixed_tail in Hr as [[-> Hx] | [Hne Hr]].
  - destruct i; [|discriminate]. simpl in Hi. congruence.
  - cbn [single_spaced] in Hs. destruct i as [|i].
    + simpl in Hi. assert (x = c) as -> by congruence. rewrite Hc in Hs.
      apply andb_prop in Hs as [Hs Hrest]. apply andb_prop in Hs as [Heq _].
      apply Ascii.eqb_eq in Heq. split; [exact Heq|].
      destruct s as [|y s]; [congruence|]. exists y. split; [reflexivity|].
      cbn [single_spaced] in Hrest. destruct (Py.isspace y); [|reflexivity].
      now rewrite andb_false_r in Hrest.
    + simpl in Hi. destruct (Py.isspace x).
      * apply andb_prop in Hs as [_ Hrest]. exact (IH true i Hrest Hr Hi Hc).
      * exact (IH false i Hs Hr Hi Hc).
Qed.

(** In a normalized text every whitespace character is a space that is
    neither the first nor the last character and that is followed by a
    character that is no whitespace: the text has no leading, trailing
    or repeated whitespace. *)
Theorem normalize_text_shape (text : value) (t : pystr) (i : nat) (c : ascii) :
  normalize_text text = Ok t ->
  t !! i = Some c -> Py.isspace c = true ->
  c = " "%char /\ (0 < i)%nat
  /\ exists c', t !! S i = Some c' /\ Py.isspace c' = false.
Proof.
  unfold normalize_text. destruct (truthy text).
  - destruct text as [|s|n|d]; try discriminate. cbn [negb]. cbv zeta.
    intros [= <-]. unfold Py.strip.
    set (u := Py.sub_spaces false s).
    assert (Hsingle : single_spaced false (Py.rstrip (Py.lstrip u)) = true).
    { apply rstrip_single, (lstrip_single false), sub_spaces_single. }
    assert (Hlead : no_lead (Py.rstrip (Py.lstrip u)) = true).
    { apply rstrip_no_lead, lstrip_no_lead. }
    pose proof (rstrip_rstrip (Py.lstrip u)) as Hfixed.
    generalize dependent (Py.rstrip (Py.lstrip u)). intros t Hsingle Hlead Hfixed Hi Hc.
    destruct (single_spaced_inner false t i c Hsingle Hfixed Hi Hc) as [Heq Hnext].
    split; [exact Heq|]. split; [|exact Hnext].
    destruct i; [|lia]. destruct t as [|x t]; [discriminate|].
    simpl in Hi, Hlead. assert (x = c) as -> by congruence.
    rewrite Hc in Hlead. discriminate.
  - cbn [negb]. intros [= <-]. discriminate.
Qed.

Lemma normalize_text_shape_witness :
  normalize_text (VStr (str "  hiring   now ")) = Ok (str "hiring now")
  /\ " "%char = " "%char /\ (0 < 6)%nat
  /\ exists c', str "hiring now" !! 7%nat = Some c' /\ Py.isspace c' = false.
Proof.
  assert (Hrun : normalize_text (VStr (str "  hiring   now ")) = Ok (str "hiring now"))
    by (vm_compute; reflexivity).
  split; [exact Hrun|].
  apply (normalize_text_shape _ _ 6%nat " "%char Hrun); reflexivity.
Defined.

End NormalizeShape.

(** ** Where a snippet is cut *)

Section SnippetCut.

(** The snippet of a text longer than [max_length] is a prefix of the
    text followed by the ellipsis. The prefix has at most [max_length]
    characters and at least 80% of it; when it is shorter than
    [max_length], the text has a space right after the prefix, and no
    other space from there up to [max_length]. *)
Theorem extract_text_snippet_prefix (T : pystr) (max_length : Z) :
  0 <= max_length <= 1000 ->
  Py.len T > max_length ->
  exists n : nat,
    extract_text_snippet (VStr T) max_length = Ok (take n T ++ str "...")
    /\ 4 * max_length <= 5 * Z.of_nat n <= 5 * max_length
    /\ (Z.of_nat n < max_length ->
        T !! n = Some " "%char
        /\ forall j, (n < j)%nat -> Z.of_nat j < max_length -> T !! j <> Some " "%char).
Proof.
  intros Hm Hlong. unfold extract_text_snippet. simpl truthy.
  destruct (Py.nonempty T) eqn:Hne; simpl negb; cbv iota.
  2:{ destruct T; [|discriminate]. unfold Py.len in Hlong. simpl length in Hlong. lia. }
  destruct (Z.leb_spec (Py.len T) max_length) as [Hshort|_]; [lia|].
  rewrite (slice_to_take T max_length) by lia.
  set (cut := take (Z.to_nat max_length) T).
  set (last_space := Py.rfind cut " "%char).
  assert (Hcut : Py.len cut = max_length).
  { unfold cut, Py.len in *. rewrite length_take. lia. }
  pose proof (rfind_range cut " "%char) as Hrange. fold last_space in Hrange.
  rewrite threshold_exact by lia.
  destruct (Z.ltb_spec (4 * max_length) (5 * last_space)) as [Hfar|Hnear].
  - exists (Z.to_nat last_space).
    rewrite (slice_to_take cut last_space) by lia.
    unfold cut at 1. rewrite take_take, Nat.min_l by lia.
    split; [reflexivity|]. split; [lia|]. intros _.
    destruct (rfind_found cut " "%char) as [Hat Hafter]; [fold last_space; lia|].
    fold last_space in Hat, Hafter. split.
    + unfold cut in Hat. rewrite lookup_take_lt in Hat by lia. exact Hat.
    + intros j Hj Hjm. specialize (Hafter j Hj).
      unfold cut in Hafter. rewrite lookup_take_lt in Hafter by lia. exact Hafter.
  - exists (Z.to_nat max_length). fold cut.
    split; [reflexivity|]. split; [lia|]. lia.
Qed.

Lemma extract_text_snippet_prefix_witness :
  Py.len text_space_at_160 > 200
  /\ exists n : nat,
       extract_text_snippet (VStr text_space_at_160) 200
       = Ok (take n text_space_at_160 ++ str "...")
       /\ 4 * 200 <= 5 * Z.of_nat n <= 5 * 200
       /\ (Z.of_nat n < 200 ->
           text_space_at_160 !! n = Some " "%char
           /\ forall j, (n < j)%nat -> Z.of_nat j < 200 ->
                text_space_at_160 !! j <> Some " "%char).
Proof.
  assert (Hlong : Py.len text_space_at_160 > 200) by (vm_compute; reflexivity).
  split; [exact Hlong|].
  apply (extract_text_snippet_prefix text_space_at_160 200); [lia | exact Hlong].
Defined.

End SnippetCut.

(** ** What the cleaner returns *)

Section CleanerResult.
Context `{IsoParser}.

Lemma then_step_frame (s1 s2 : dict -> dict * res unit) (k : string) :
  (forall d, (s1 d).1 !! k = d !! k) ->
  (forall d, (s2 d).1 !! k = d !! k) ->
  forall d, (then_step s1 s2 d).1 !! k = d !! k.
Proof.
  intros H1 H2 d. unfold then_step. specialize (H1 d).
  destruct (s1 d) as [d1 [[]|e]]; simpl in *; [|exact H1].
  now rewrite H2.
Qed.

Lemma clean_steps_frame (now : datetime) (d : dict) (k : string) :
  k ∉ ["text"; "text_snippet"; "post_url"; "author_url"; "date_posted"] ->
  (clean_steps now d).1 !! k = d !! k.
Proof.
  intros Hk. rewrite !not_elem_of_cons in Hk.
  destruct Hk as (Ht & Hs & Hp & Ha & Hd & _).
  revert d. unfold clean_steps.
  repeat apply then_step_frame; intros d.
  - now apply text_step_frame.
  - now apply url_step_frame.
  - now apply url_step_frame.
  - now apply date_step_frame.
Qed.

(** The record that [clean_post_data] returns: its text is normalized
    and its snippet is the snippet of that text, its URLs are empty or
    start with [http], its date is no string, and every other field is
    the one of the argument. *)
Theorem clean_post_data_cleans (now : datetime) (post c : loc) (h h1 : heap) :
  run (clean_post_data now post) h = (h1, Ok c) ->
  cleaned_ok (contents h1 c)
  /\ forall k,
       k ∉ ["text"; "text_snippet"; "post_url"; "author_url"; "date_posted"] ->
       contents h1 c !! k = contents h post !! k.
Proof.
  rewrite clean_post_data_run.
  destruct (clean_steps now (contents h post)) as [d1 [[]|e]] eqn:Hsteps;
    cbn [fst snd]; [rewrite res_bind_Ok | rewrite res_bind_Raise; discriminate].
  intros [= <- <-]. rewrite contents_snoc. split.
  - exact (clean_steps_cleaned now _ _ Hsteps).
  - intros k Hk. pose proof (clean_steps_frame now (contents h post) k Hk) as Hframe.
    now rewrite Hsteps in Hframe.
Qed.

End CleanerResult.

Lemma clean_post_data_cleans_witness :
  let result := run (clean_post_data (H := iso_basic) now_march_1 0%nat) [post_raw] in
  cleaned_ok (contents result.1 1%nat)
  /\ forall k,
       k ∉ ["text"; "text_snippet"; "post_url"; "author_url"; "date_posted"] ->
       contents result.1 1%nat !! k = contents [post_raw] 0%nat !! k.
Proof.
  apply (clean_post_data_cleans (H := iso_basic) now_march_1 0%nat 1%nat [post_raw]).
  vm_compute. reflexivity.
Defined.

(** ** What the ranking writes *)

Section RankingWrites.

(** [score_and_rank_posts] works in place: it allocates nothing, it
    writes only the field [score], only into the posts of its list, and
    the score it stores in a post is the relevance score of the text of
    the post (of the empty text when the post has none). *)
Theorem score_and_rank_posts_scores
    (posts : list loc) (keywords : list pystr) (h h' : heap) (ranked : list loc) :
  run (score_and_rank_posts posts keywords) h = (h', Ok ranked) ->
  Forall (fun l => (l < length h)%nat) posts ->
  length h' = length h
  /\ (forall l k, k <> "score" -> contents h' l !! k = contents h l !! k)
  /\ (forall l, l ∉ posts -> contents h' l = contents h l)
  /\ Forall (fun l =>
       exists score,
         calculate_relevance_score (dict_get_or (contents h l) "text" (VStr [])) keywords
         = Ok score
         /\ contents h' l !! "score" = Some (VInt score)) posts.
Proof.
  unfold score_and_rank_posts. rewrite run_bind.
  destruct (run (score_loop posts keywords) h) as [h1 [[]|e]] eqn:Hloop; [|discriminate].
  destruct (score_loop_frame _ _ _ _ Hloop) as (Hlen & Hother & Hout & _ & Hint).
  rewrite run_bind, (run_keyed posts h1 Hint). cbv beta iota. rewrite run_ret.
  intros [= <- _] Hlive.
  split; [exact Hlen|]. split; [exact Hother|]. split; [exact Hout|].
  rewrite List.Forall_forall in Hlive |- *. intros l Hl.
  apply (score_loop_scores _ _ _ _ Hloop).
  - now apply list_elem_of_In.
  - now apply Hlive.
Qed.

Lemma score_and_rank_posts_scores_witness :
  let h' := (run (score_and_rank_posts [0; 1; 2; 3]%nat [str "hiring"]) ranking_heap).1 in
  length h' = length ranking_heap
  /\ (forall l k, k <> "score" -> contents h' l !! k = contents ranking_heap l !! k)
  /\ (forall l, l ∉ [0; 1; 2; 3]%nat -> contents h' l = contents ranking_heap l)
  /\ Forall (fun l =>
       exists score,
         calculate_relevance_score
           (dict_get_or (contents ranking_heap l) "text" (VStr [])) [str "hiring"]
         = Ok score
         /\ contents h' l !! "score" = Some (VInt score)) [0; 1; 2; 3]%nat.
Proof.
  apply (score_and_rank_posts_scores [0; 1; 2; 3]%nat [str "hiring"] ranking_heap _
           [0; 2; 3; 1]%nat).
  - vm_compute. reflexivity.
  - repeat apply List.Forall_cons; try apply List.Forall_nil; simpl; lia.
Defined.

End RankingWrites.

(** ** What [parse_post_element] returns for a markup node *)

Section NodeContract.
Context `{IsoParser}.

Lemma node_text_normalized (element : soup_node) (text : pystr) :
  node_text element = Ok text -> normalize_text (VStr text) = Ok text.
Proof.
  unfold node_text.
  destruct (match find_description element with
            | Some e => Some e
            | None => match find_span_ltr element with
                      | Some e => Some e
                      | None => find_div_text element
                      end
            end) as [t|].
  - apply normalize_text_fixed.
  - now intros [= <-].
Qed.

Lemma parse_node_cases (now_rel now : datetime) (element : soup_node) (base_url : pystr)
    (fields : dict) :
  parse_node now_rel now element base_url = Ok (Some fields) ->
  exists url text,
    node_permalink element base_url = Some url /\ Py.nonempty url = true
    /\ node_text element = Ok text /\ Py.nonempty text = true
    /\ fields !! "post_url" = Some (VStr url)
    /\ fields !! "text" = Some (VStr text).
Proof.
  unfold parse_node.
  destruct (match find_author_link element with
            | Some author_elem =>
                author_name ← normalize_text (VStr (link_text author_elem));
                Ok (Some (absolute base_url (default [] (href author_elem))),
                    Some author_name)
            | None => Ok (None, None)
            end) as [[author_url author_name]|e];
    [|rewrite res_bind_Raise; discriminate].
  rewrite res_bind_Ok. cbv beta zeta iota.
  destruct (node_text element) as [text|e]; [|rewrite res_bind_Raise; discriminate].
  rewrite res_bind_Ok. cbv beta zeta.
  destruct (node_permalink element base_url) as [url|]; cbn [from_option negb orb];
    [|discriminate].
  destruct (Py.nonempty url) eqn:Hurl; cbn [negb orb]; [|discriminate].
  destruct (Py.nonempty text) eqn:Htext; cbn [negb]; [|discriminate].
  destruct (extract_text_snippet (VStr text) default_max_length) as [snippet|e];
    [|rewrite res_bind_Raise; discriminate].
  rewrite res_bind_Ok. intros [= <-].
  exists url, text. split; [reflexivity|]. split; [exact Hurl|].
  split; [reflexivity|]. split; [exact Htext|]. split.
  - now rewrite lookup_insert_eq.
  - do 3 (rewrite lookup_insert_ne by discriminate). now rewrite lookup_insert_eq.
Qed.

(** For a markup node [parse_post_element] never raises. It returns
    [None] and allocates nothing, or it returns a new record, and then
    the node has a permalink and a text, both non-empty, which are the
    [post_url] and the [text] of the record; the text is normalized. *)
Theorem parse_post_element_contract
    (now_rel now : datetime) (element : soup_node) (base_url : pystr) (h : heap) :
  let result := run (parse_post_element now_rel now (RawNode element) base_url) h in
  result = (h, Ok None)
  \/ exists fields url text,
       result = (h ++ [fields], Ok (Some (length h)))
       /\ node_permalink element base_url = Some url /\ Py.nonempty url = true
       /\ node_text element = Ok text /\ Py.nonempty text = true
       /\ normalize_text (VStr text) = Ok text
       /\ fields !! "post_url" = Some (VStr url)
       /\ fields !! "text" = Some (VStr text).
Proof.
  cbv zeta. unfold parse_post_element.
  destruct (parse_node now_rel now element base_url) as [[fields|]|e] eqn:Hnode.
  - right. apply parse_node_cases in Hnode
      as (url & text & Hurl & Hne & Htext & Hnt & Hfurl & Hftext).
    exists fields, url, text.
    rewrite run_bind, run_new_dict. cbv beta iota. rewrite run_ret.
    repeat split; try assumption.
    exact (node_text_normalized _ _ Htext).
  - left. apply run_ret.
  - left. apply run_ret.
Qed.

End NodeContract.

(** ** The hash of a URL *)

Section HashUrl.

Lemma le_bytes_range (n : nat) (x : Z) :
  Forall (fun b => 0 <= b < 256) (MD5.le_bytes n x).
Proof.
  unfold MD5.le_bytes. apply List.Forall_forall. intros b Hb.
  apply in_map_iff in Hb as (i & <- & _).
  change 255 with (Z.ones 8). rewrite Z.land_ones by lia.
  apply Z.mod_pos_bound. lia.
Qed.

Lemma md5_digest_range (msg : list Z) :
  Forall (fun b => 0 <= b < 256) (MD5.digest msg).
Proof.
  unfold MD5.digest. cbv zeta.
  generalize (fold_left MD5.compress
                (MD5.blocks (length (MD5.pad msg) / 64) (MD5.pad msg)) MD5.init).
  intros st. repeat (apply Forall_app; split); apply le_bytes_range.
Qed.

Lemma hex_digit_is_hex (n : Z) : 0 <= n < 16 -> is_hex (MD5.hex_digit n) = true.
Proof.
  intros Hn.
  assert (Hcases : In n [0; 1; 2; 3; 4; 5; 6; 7; 8; 9; 10; 11; 12; 13; 14; 15]).
  { simpl. lia. }
  simpl in Hcases.
  repeat (destruct Hcases as [<- | Hcases]; [vm_compute; reflexivity|]).
  contradiction.
Qed.

(** [hash_url] returns 32 characters, each a lowercase hexadecimal
    digit, whatever the URL. *)
Theorem hash_url_hex (url : pystr) :
  length (hash_url url) = 32%nat /\ forallb is_hex (hash_url url) = true.
Proof.
  unfold hash_url, md5_hex. split; [apply md5_hexdigest_length|].
  unfold MD5.hexdigest.
  pose proof (md5_digest_range (Py.encode url)) as Hrange.
  induction Hrange as [|b bs Hb _ IH]; [reflexivity|].
  cbn [flat_map MD5.hex_byte app forallb]. rewrite IH.
  rewrite !hex_digit_is_hex; [reflexivity| |].
  - apply Z.mod_pos_bound. lia.
  - split; [apply Z.div_pos; lia | apply Z.div_lt_upper_bound; lia].
Qed.

End HashUrl.

(** ** The two adapters on a unit without a permalink or without a text *)

Section HexDigits.




End HexDigits.

Section AdapterContract.
Context `{IsoParser}.








End AdapterContract.


(** The same for a node with a post link and no text. *)
Example parse_post_element_drops_link_only_node :
  node_permalink node_link_only base_url_default
  = Some (str "https://www.linkedin.com/posts/7")
  /\ node_text node_link_only = Ok []
  /\ run (parse_post_element (H := iso_basic) now_march_1 now_march_1
            (RawNode node_link_only) base_url_default) []
     = ([], Ok None).
Proof. repeat split; vm_compute; reflexivity. Qed.

(** The browser adapter on the same evidence: a record in both cases. *)
Example extract_single_post_keeps_both :
  returned_field
    (run (_extract_single_post (H := iso_basic) now_march_1 now_march_1 now_march_1
            element_text_only) [])
    "post_url"
  = Some (VStr (str "https://www.linkedin.com/feed/post/39dba862fee5"))
  /\ returned_field
       (run (_extract_single_post (H := iso_basic) now_march_1 now_march_1 now_march_1
               element_link_only) [])
       "post_url"
     = Some (VStr (str "https://www.linkedin.com/posts/7")).
Proof. split; vm_compute; reflexivity. Qed.
